(** * chart-generator: the ChartSpec contract and its consumers

    A shallow embedding of the TypeScript front end of the chart generator
    (types/chartSpec.ts, utils/chartConverter.ts, components/ChartDisplay.tsx,
    components/JsonInput.tsx) together with a model of the inference engine
    it talks to, and the properties the specification states about them.

    JavaScript objects used as string-keyed maps are [gmap string _];
    arrays are lists; numbers are IEEE doubles. *)

From Stdlib Require Import Floats.PrimFloat.
From stdpp Require Import gmap strings list fin_maps.

Set Warnings "-register-all".
Local Open Scope string_scope.

(** ** JavaScript values *)

Abbreviation number := float.

(** A value of type [unknown]: what [JSON.parse] can produce, plus
    [undefined], which object literals of the converter store explicitly. *)
Inductive JsValue : Type :=
| JUndefined
| JNull
| JBool (b : bool)
| JNum (n : number)
| JStr (s : string)
| JArr (l : list JsValue)
| JObj (m : gmap string JsValue).

(** A property declared [f?: T | null]: the key may be missing, or hold
    [null], or hold a [T]. *)
Inductive nullable (A : Type) : Type :=
| Absent
| Null
| Val (a : A).
Arguments Absent {A}.
Arguments Null {A}.
Arguments Val {A} a.

(** Property read [o.k]: a missing key reads as [undefined]. *)
Definition js_get (o : gmap string JsValue) (k : string) : JsValue :=
  default JUndefined (o !! k).

(** [k in o] for a plain object. *)
Definition js_in (k : string) (o : gmap string JsValue) : bool :=
  bool_decide (is_Some (o !! k)).

(** Object spread [{...target, ...source}]: every own property of [source]
    is defined on the result, replacing a property of the same key. *)
Definition object_spread (target source : gmap string JsValue)
  : gmap string JsValue := source ∪ target.

(** Truthiness of a string: only the empty string is falsy. *)
Definition truthy (s : string) : bool := negb (String.eqb s "").

(** A [string | null | undefined] under a truthiness test: the string it
    holds when it is truthy. [null], [undefined] and the empty string are
    falsy. *)
Definition truthy_text (s : nullable string) : option string :=
  match s with
  | Val s => if truthy s then Some s else None
  | _ => None
  end.

(** [s || d] on such a value. *)
Definition string_or (s : nullable string) (d : string) : string :=
  default d (truthy_text s).

(** [x ?? undefined] for [x : number | null | undefined]. *)
Definition nullish_undefined (x : nullable number) : JsValue :=
  match x with
  | Val n => JNum n
  | _ => JUndefined
  end.

(** ** types/chartSpec.ts *)

Inductive ChartType : Type :=
| LINE | BAR | COLUMN | PIE | AREA | SCATTER | HEATMAP.

(** The string value of each enum member. *)
Definition ChartType_value (c : ChartType) : string :=
  match c with
  | LINE => "line"
  | BAR => "bar"
  | COLUMN => "column"
  | PIE => "pie"
  | AREA => "area"
  | SCATTER => "scatter"
  | HEATMAP => "heatmap"
  end.

#[global] Instance ChartType_eq_dec : EqDecision ChartType.
Proof. solve_decision. Defined.

Module AxisSpec.
Record t : Type := mk {
  title : string;
  field : nullable string;
  type : string;
  unit : nullable string;
  format : nullable string;
  min : nullable number;
  max : nullable number;
}.
End AxisSpec.

(** An element of [Array<number | string>]. *)
Inductive Scalar : Type :=
| SNum (n : number)
| SStr (s : string).

(** An element of [SeriesSpec.data]:
    [Record<string, unknown> | Array<number | string> | number]. *)
Inductive DataPoint : Type :=
| PRecord (r : gmap string JsValue)
| PArray (a : list Scalar)
| PNumber (n : number).

Definition Scalar_to_js (x : Scalar) : JsValue :=
  match x with
  | SNum n => JNum n
  | SStr s => JStr s
  end.

(** The same data point seen at type [unknown]. *)
Definition DataPoint_to_js (p : DataPoint) : JsValue :=
  match p with
  | PRecord r => JObj r
  | PArray a => JArr (Scalar_to_js <$> a)
  | PNumber n => JNum n
  end.

Module SeriesSpec.
Record t : Type := mk {
  name : string;
  data : list DataPoint;
  type : nullable string;
  color : nullable string;
  y_axis : number;
}.
End SeriesSpec.

Module ChartSpec.
Record t : Type := mk {
  chart_type : ChartType;
  title : string;
  subtitle : nullable string;
  series : list SeriesSpec.t;
  x_axis : AxisSpec.t;
  y_axis : nullable AxisSpec.t;
  rationale : string;
  alternative_types : list ChartType;
  description : nullable string;
  config : gmap string JsValue;
}.
End ChartSpec.

Module UserHints.
Record t : Type := mk {
  preferred_chart_type : nullable ChartType;
  x_field : nullable string;
  y_field : nullable string;
  units : nullable (gmap string string);
  formatting : nullable (gmap string string);
}.
End UserHints.

Module ChartRequest.
Record t : Type := mk {
  data : JsValue;
  hints : nullable UserHints.t;
}.
End ChartRequest.

(** ** utils/chartConverter.ts *)

Module chartConverter.

(** [s.color || undefined] *)
Definition string_or_undefined (s : nullable string) : JsValue :=
  from_option JStr JUndefined (truthy_text s).

(** The object literal [seriesConfig] built for one series. *)
Definition seriesConfig (chartType : ChartType) (s : SeriesSpec.t)
  : gmap string JsValue :=
  {[ "name" := JStr (SeriesSpec.name s);
     "data" := JArr (DataPoint_to_js <$> SeriesSpec.data s);
     "type" := JStr (ChartType_value chartType);
     "color" := string_or_undefined (SeriesSpec.color s);
     "yAxis" := JNum (SeriesSpec.y_axis s) ]}.

(** The callback of [spec.series.map]. The pie branch spreads
    [seriesConfig] and sets [type] and [data] again; its cast of [s.data]
    to [Array<{name, y}>] exists at compile time only. *)
Definition convert_series (chartType : ChartType) (s : SeriesSpec.t)
  : gmap string JsValue :=
  if decide (chartType = PIE) then
    <["data" := JArr (DataPoint_to_js <$> SeriesSpec.data s)]>
      (<["type" := JStr "pie"]>
         (object_spread ∅ (seriesConfig chartType s)))
  else seriesConfig chartType s.

(** The conditional chain that picks the Highcharts type of the x axis. *)
Definition xAxis_type (t : string) : string :=
  if String.eqb t "datetime" then "datetime"
  else if String.eqb t "log" then "logarithmic"
  else if String.eqb t "category" then "category"
  else "linear".

(** The chain of the y axis: it has no [datetime] arm. *)
Definition yAxis_type (t : string) : string :=
  if String.eqb t "log" then "logarithmic"
  else if String.eqb t "category" then "category"
  else "linear".

(** [title + (unit ? ` (${unit})` : "")] *)
Definition yAxis_title_text (a : AxisSpec.t) : string :=
  AxisSpec.title a ++
    match truthy_text (AxisSpec.unit a) with
    | Some u => " (" ++ u ++ ")"
    | None => ""
    end.

(** The local [xAxis]; [None] is the uninitialised [undefined]. The guard
    [spec.x_axis &&] always passes: [x_axis] is a required object. *)
Definition xAxis (spec : ChartSpec.t) : option (gmap string JsValue) :=
  let a := ChartSpec.x_axis spec in
  if decide (ChartSpec.chart_type spec ≠ PIE) then
    Some {[ "title" := JObj {[ "text" := JStr (AxisSpec.title a) ]};
            "type" := JStr (xAxis_type (AxisSpec.type a));
            "min" := nullish_undefined (AxisSpec.min a);
            "max" := nullish_undefined (AxisSpec.max a) ]}
  else None.

(** The local [yAxis]. *)
Definition yAxis (spec : ChartSpec.t) : option (gmap string JsValue) :=
  match ChartSpec.y_axis spec with
  | Val a =>
      if decide (ChartSpec.chart_type spec ≠ PIE) then
        Some {[ "title" := JObj {[ "text" := JStr (yAxis_title_text a) ]};
                "type" := JStr (yAxis_type (AxisSpec.type a));
                "min" := nullish_undefined (AxisSpec.min a);
                "max" := nullish_undefined (AxisSpec.max a) ]}
      else None
  | _ => None
  end.

(** [axis ? [axis] : undefined] *)
Definition axis_entry (axis : option (gmap string JsValue)) : JsValue :=
  match axis with
  | Some o => JArr [JObj o]
  | None => JUndefined
  end.

(** The object literal [baseConfig]. *)
Definition baseConfig (spec : ChartSpec.t) : gmap string JsValue :=
  {[ "title" := JObj {[ "text" := JStr (ChartSpec.title spec) ]};
     "subtitle" :=
       match truthy_text (ChartSpec.subtitle spec) with
       | Some subtitle => JObj {[ "text" := JStr subtitle ]}
       | None => JUndefined
       end;
     "credits" := JObj {[ "enabled" := JBool false ]};
     "accessibility" :=
       JObj {[ "description" :=
                 JStr (string_or (ChartSpec.description spec)
                                 (ChartSpec.title spec)) ]} ]}.

(** The options before [...spec.config] is spread over them. *)
Definition computed_options (spec : ChartSpec.t) : gmap string JsValue :=
  let chartType := ChartSpec.chart_type spec in
  let series := convert_series chartType <$> ChartSpec.series spec in
  <["yAxis" := axis_entry (yAxis spec)]>
    (<["xAxis" := axis_entry (xAxis spec)]>
       (<["series" := JArr (JObj <$> series)]>
          (<["chart" :=
               JObj {[ "type" :=
                         JStr (if decide (chartType = PIE) then "pie"
                               else ChartType_value chartType) ]}]>
             (object_spread ∅ (baseConfig spec))))).

(** The returned [options]: [spec.config] is spread last. *)
Definition chartSpecToHighcharts (spec : ChartSpec.t)
  : gmap string JsValue :=
  object_spread (computed_options spec) (ChartSpec.config spec).

End chartConverter.

(** ** The JavaScript built-ins the components call

    [String(v)], [Number(v)], [s.trim()] and [JSON.parse(s)] belong to the
    language runtime, not to this repository; the components are
    parametric in them. [js_String v] and [js_Number v] are what
    [String(v)] and [Number(v)] return when they return. [JSON_parse]
    returns the parsed value, or the message of the [SyntaxError] it
    throws. *)
Class JsRuntime : Type := {
  js_String : JsValue → string;
  js_Number : JsValue → number;
  js_trim : string → string;
  JSON_parse : string → JsValue + string;
}.

(** The outcome of an evaluation that may throw a [TypeError]. *)
Inductive Completion (A : Type) : Type :=
| Returns (a : A)
| ThrowsTypeError.
Arguments Returns {A} a.
Arguments ThrowsTypeError {A}.

#[global] Instance Completion_ret : MRet Completion := @Returns.

#[global] Instance Completion_bind : MBind Completion :=
  λ A B f c,
    match c with
    | Returns a => f a
    | ThrowsTypeError => ThrowsTypeError
    end.

(** [String(v)] and [Number(v)] first convert an object to a primitive,
    and throw a [TypeError] when neither [toString] nor [valueOf] gives
    one. A parsed value is never callable, and the [valueOf] every object
    inherits returns the object itself; so the conversion of a plain
    object fails exactly when it has an own property [toString], which
    hides the inherited method. An array is converted by joining the
    conversions of its elements, and fails when one of them does. *)
Fixpoint ToPrimitive_throws (v : JsValue) : bool :=
  match v with
  | JObj m => js_in "toString" m
  | JArr l => existsb ToPrimitive_throws l
  | _ => false
  end.

(** [String(v)] *)
Definition String_of `{JsRuntime} (v : JsValue) : Completion string :=
  if ToPrimitive_throws v then ThrowsTypeError else Returns (js_String v).

(** [Number(v)] *)
Definition Number_of `{JsRuntime} (v : JsValue) : Completion number :=
  if ToPrimitive_throws v then ThrowsTypeError else Returns (js_Number v).

(** [Math.max(...xs)] over array lengths: with no argument the result is
    [-Infinity]. *)
Inductive MaxResult : Type :=
| NegInfinity
| Finite (n : nat).

Definition Math_max (xs : list nat) : MaxResult :=
  foldl (λ acc x, match acc with
                  | NegInfinity => Finite x
                  | Finite m => Finite (Nat.max m x)
                  end) NegInfinity xs.

(** How often the body of [for (let i = 0; i < bound; i++)] runs. *)
Definition loop_count (bound : MaxResult) : nat :=
  match bound with
  | NegInfinity => 0
  | Finite n => n
  end.

(** [row[k] = v] on an object created by [{}], for a primitive [v]. The
    key [__proto__] reaches the inherited setter, which ignores a
    primitive; no own property is created. *)
Definition assign_primitive (k : string) (v : Scalar)
    (row : gmap string JsValue) : gmap string JsValue :=
  if String.eqb k "__proto__" then row else <[k := Scalar_to_js v]> row.

(** [xs.filter(Boolean)] on an array of objects and [null]s. *)
Definition filter_Boolean {A : Type} (xs : list (option A)) : list A :=
  omap id xs.

(** ** components/ChartDisplay.tsx: the tabular fallback *)

Module ChartDisplay.

Record PieRow : Type := mkPieRow {
  name : string;
  value : number;
}.

(** The value of the [tableData] memo: name/value rows for a pie chart,
    one record per index otherwise. *)
Inductive TableData : Type :=
| PieRows (rows : list PieRow)
| SeriesRows (rows : list (gmap string JsValue)).

Section WithRuntime.
Context `{JsRuntime}.

(** The callback mapped over the first series of a pie chart; [None]
    is the [null] it returns for any other item. An array is an object
    and not [null], but has neither a [name] nor a [y] property. The
    callback throws when [String(item.name)] or [Number(item.y)] does. *)
Definition pie_row (item : DataPoint) : Completion (option PieRow) :=
  match item with
  | PRecord r =>
      if js_in "name" r && js_in "y" r
      then name ← String_of (js_get r "name");
           value ← Number_of (js_get r "y");
           Returns (Some {| name := name; value := value |})
      else Returns None
  | PArray _ => Returns None
  | PNumber _ => Returns None
  end.

(** The body of [spec.series.forEach] for row [i]. *)
Definition fill_cell (spec : ChartSpec.t) (i : nat)
    (row : gmap string JsValue) (series : SeriesSpec.t)
  : gmap string JsValue :=
  match SeriesSpec.data series !! i with
  | Some (PArray (x :: y :: _)) =>
      assign_primitive (SeriesSpec.name series) y
        (assign_primitive (AxisSpec.title (ChartSpec.x_axis spec)) x row)
  | Some (PNumber n) =>
      assign_primitive (SeriesSpec.name series) (SNum n) row
  | _ => row
  end.

(** The row pushed at index [i]. *)
Definition build_row (spec : ChartSpec.t) (i : nat)
  : gmap string JsValue :=
  foldl (fill_cell spec i) ∅ (ChartSpec.series spec).

(** The memo [tableData]. In the pie branch [map] calls the callback on
    the items in order, and the memo throws as soon as a call does. *)
Definition tableData (spec : ChartSpec.t) : Completion TableData :=
  if decide (ChartSpec.chart_type spec = PIE) then
    match ChartSpec.series spec !! 0 with
    | Some s =>
        items ← mapM pie_row (SeriesSpec.data s);
        Returns (PieRows (filter_Boolean items))
    | None => Returns (PieRows [])
    end
  else
    let maxLength :=
      Math_max ((λ s, length (SeriesSpec.data s)) <$> ChartSpec.series spec) in
    Returns (SeriesRows (build_row spec <$> seq 0 (loop_count maxLength))).

End WithRuntime.
End ChartDisplay.

(** ** components/JsonInput.tsx: building the request *)

Module JsonInput.

(** The state of the component. [error] has type [string | null].
    [preferredChartType] has type [ChartType | ""]: [None] is the empty
    string of the "Auto-detect" option, the only falsy member. *)
Record State : Type := mkState {
  jsonText : string;
  error : option string;
  preferredChartType : option ChartType;
  xField : string;
  yField : string;
}.

(** [setError(e)] *)
Definition setError (e : option string) (st : State) : State :=
  mkState (jsonText st) e (preferredChartType st) (xField st) (yField st).

(** The number of own keys of a hints object that a property adds. *)
Definition present {A : Type} (x : nullable A) : nat :=
  match x with
  | Absent => 0
  | _ => 1
  end.

(** [Object.keys(hints).length] *)
Definition Object_keys_length (h : UserHints.t) : nat :=
  present (UserHints.preferred_chart_type h) + present (UserHints.x_field h)
  + present (UserHints.y_field h) + present (UserHints.units h)
  + present (UserHints.formatting h).

(** [hints.preferred_chart_type = c], [hints.x_field = x] and
    [hints.y_field = y]. *)
Definition set_preferred_chart_type (c : ChartType) (h : UserHints.t)
  : UserHints.t :=
  UserHints.mk (Val c) (UserHints.x_field h) (UserHints.y_field h)
               (UserHints.units h) (UserHints.formatting h).

Definition set_x_field (x : string) (h : UserHints.t) : UserHints.t :=
  UserHints.mk (UserHints.preferred_chart_type h) (Val x)
               (UserHints.y_field h) (UserHints.units h)
               (UserHints.formatting h).

Definition set_y_field (y : string) (h : UserHints.t) : UserHints.t :=
  UserHints.mk (UserHints.preferred_chart_type h) (UserHints.x_field h)
               (Val y) (UserHints.units h) (UserHints.formatting h).

(** The empty object literal [{}] at type [UserHints]. *)
Definition no_hints : UserHints.t :=
  UserHints.mk Absent Absent Absent Absent Absent.

(** What a call of the [onSubmit] prop comes to: it returns, or it
    throws; [message] is the text the [catch] clause makes of the thrown
    value (its [message] if it is an [Error], [String] of it
    otherwise). *)
Inductive CallOutcome : Type :=
| Returned
| Thrown (message : string).

(** The [onSubmit] prop of the component. *)
Class JsonInputProps : Type := {
  onSubmit : ChartRequest.t → CallOutcome;
}.

Section WithRuntime.
Context `{JsRuntime} `{JsonInputProps}.

(** The three conditional assignments to [hints]. A string is truthy
    when it is not empty. *)
Definition build_hints (st : State) : UserHints.t :=
  let hints := no_hints in
  let hints :=
    match preferredChartType st with
    | Some c => set_preferred_chart_type c hints
    | None => hints
    end in
  let hints :=
    if truthy (js_trim (xField st))
    then set_x_field (js_trim (xField st)) hints else hints in
  let hints :=
    if truthy (js_trim (yField st))
    then set_y_field (js_trim (yField st)) hints else hints in
  hints.

(** [handleSubmit] threads the state and hands [onSubmit] at most one
    request: it clears the error, parses the text and calls [onSubmit]
    with the request. The [catch] clause sets the error when parsing
    throws and also when the call of [onSubmit] does, which sits in the
    same [try]. The second component is the request [onSubmit] was called
    with. *)
Definition handleSubmit (st : State) : State * option ChartRequest.t :=
  let st := setError None st in
  match JSON_parse (jsonText st) with
  | inl data =>
      let hints := build_hints st in
      let request :=
        {| ChartRequest.data := data;
           ChartRequest.hints :=
             if Nat.ltb 0 (Object_keys_length hints)
             then Val hints else Null |} in
      match onSubmit request with
      | Returned => (st, Some request)
      | Thrown message =>
          (setError (Some ("Invalid JSON: " ++ message)) st, Some request)
      end
  | inr message => (setError (Some ("Invalid JSON: " ++ message)) st, None)
  end.

End WithRuntime.
End JsonInput.

(** ** The interfaces of types/chartSpec.ts as data

    The declarations themselves, property by property, next to the
    records above that the code computes with. *)

Module Schema.

(** The type expressions the declarations use. *)
Inductive TsType : Type :=
| TString
| TNumber
| TUnknown
| TNamed (name : string)
| TArray (element : TsType)
| TRecord (value : TsType)
| TUnion (members : list TsType).

(** A property [name: T], [name?: T | null] when [optional]. Every
    optional property of the file also allows [null]. *)
Record Property : Type := mkProperty {
  prop_name : string;
  optional : bool;
  prop_type : TsType;
}.

Definition required (n : string) (t : TsType) : Property :=
  mkProperty n false t.

Definition optional_nullable (n : string) (t : TsType) : Property :=
  mkProperty n true t.

Definition AxisSpec_interface : list Property :=
  [ required "title" TString;
    optional_nullable "field" TString;
    required "type" TString;
    optional_nullable "unit" TString;
    optional_nullable "format" TString;
    optional_nullable "min" TNumber;
    optional_nullable "max" TNumber ].

Definition SeriesSpec_interface : list Property :=
  [ required "name" TString;
    required "data"
      (TArray (TUnion [TRecord TUnknown;
                       TArray (TUnion [TNumber; TString]);
                       TNumber]));
    optional_nullable "type" TString;
    optional_nullable "color" TString;
    required "y_axis" TNumber ].

Definition ChartSpec_interface : list Property :=
  [ required "chart_type" (TNamed "ChartType");
    required "title" TString;
    optional_nullable "subtitle" TString;
    required "series" (TArray (TNamed "SeriesSpec"));
    required "x_axis" (TNamed "AxisSpec");
    optional_nullable "y_axis" (TNamed "AxisSpec");
    required "rationale" TString;
    required "alternative_types" (TArray (TNamed "ChartType"));
    optional_nullable "description" TString;
    required "config" (TRecord TUnknown) ].

(** What the output contract says of an attribute: its name, whether it
    is optional, and its shape where the contract names one. *)
Inductive Shape : Type :=
| AnyShape
| ChartTypeValue
| Text
| Index
| Sequence (elements : Shape)
| SeriesEntry
| Axis
| OpenMap.

Record Attribute : Type := mkAttribute {
  attr_name : string;
  attr_optional : bool;
  attr_shape : Shape;
}.

(** The output contract, in the words of the specification: chart type,
    title, optional subtitle, ordered sequence of series, x-axis spec,
    optional y-axis spec, rationale string, ordered sequence of
    alternative types, optional description, open-ended config map. *)
Definition ChartDescription_contract : list Attribute :=
  [ mkAttribute "chart_type" false ChartTypeValue;
    mkAttribute "title" false AnyShape;
    mkAttribute "subtitle" true AnyShape;
    mkAttribute "series" false (Sequence SeriesEntry);
    mkAttribute "x_axis" false Axis;
    mkAttribute "y_axis" true Axis;
    mkAttribute "rationale" false Text;
    mkAttribute "alternative_types" false (Sequence AnyShape);
    mkAttribute "description" true AnyShape;
    mkAttribute "config" false OpenMap ].

(** Each series: name, formatted data, optional type, optional color,
    and the index of its y axis. *)
Definition series_contract : list Attribute :=
  [ mkAttribute "name" false AnyShape;
    mkAttribute "data" false AnyShape;
    mkAttribute "type" true AnyShape;
    mkAttribute "color" true AnyShape;
    mkAttribute "y_axis" false Index ].

(** An axis: title, optional field, type, optional unit, optional
    format, optional bounds. *)
Definition AxisSpec_contract : list Attribute :=
  [ mkAttribute "title" false AnyShape;
    mkAttribute "field" true AnyShape;
    mkAttribute "type" false AnyShape;
    mkAttribute "unit" true AnyShape;
    mkAttribute "format" true AnyShape;
    mkAttribute "min" true AnyShape;
    mkAttribute "max" true AnyShape ].

(** A declared type has the shape the contract names. *)
Fixpoint has_shape (sh : Shape) (t : TsType) : bool :=
  match sh, t with
  | AnyShape, _ => true
  | ChartTypeValue, TNamed n => String.eqb n "ChartType"
  | Text, TString => true
  | Index, TNumber => true
  | Sequence sh', TArray t' => has_shape sh' t'
  | SeriesEntry, TNamed n => String.eqb n "SeriesSpec"
  | Axis, TNamed n => String.eqb n "AxisSpec"
  | OpenMap, TRecord _ => true
  | _, _ => false
  end.

(** A declared property is the attribute of the contract: same name,
    same optionality, and the shape named. *)
Definition declares (p : Property) (a : Attribute) : Prop :=
  prop_name p = attr_name a
  ∧ optional p = attr_optional a
  ∧ has_shape (attr_shape a) (prop_type p) = true.


(** The JSON object that a value of an interface is: a required property
    is always there, an optional one is left out, [null], or there. *)
Definition nullable_to_js {A : Type} (f : A → JsValue) (x : nullable A)
  : option JsValue :=
  match x with
  | Absent => None
  | Null => Some JNull
  | Val a => Some (f a)
  end.

Definition put_optional (k : string) (v : option JsValue)
    (o : gmap string JsValue) : gmap string JsValue :=
  match v with
  | Some v => <[k := v]> o
  | None => o
  end.

Definition AxisSpec_to_js (a : AxisSpec.t) : gmap string JsValue :=
  put_optional "max" (nullable_to_js JNum (AxisSpec.max a))
    (put_optional "min" (nullable_to_js JNum (AxisSpec.min a))
       (put_optional "format" (nullable_to_js JStr (AxisSpec.format a))
          (put_optional "unit" (nullable_to_js JStr (AxisSpec.unit a))
             (put_optional "field" (nullable_to_js JStr (AxisSpec.field a))
                {[ "title" := JStr (AxisSpec.title a);
                   "type" := JStr (AxisSpec.type a) ]})))).

Definition SeriesSpec_to_js (s : SeriesSpec.t) : gmap string JsValue :=
  put_optional "color" (nullable_to_js JStr (SeriesSpec.color s))
    (put_optional "type" (nullable_to_js JStr (SeriesSpec.type s))
       {[ "name" := JStr (SeriesSpec.name s);
          "data" := JArr (DataPoint_to_js <$> SeriesSpec.data s);
          "y_axis" := JNum (SeriesSpec.y_axis s) ]}).

Definition ChartSpec_to_js (c : ChartSpec.t) : gmap string JsValue :=
  put_optional "description"
    (nullable_to_js JStr (ChartSpec.description c))
    (put_optional "y_axis"
       (nullable_to_js (JObj ∘ AxisSpec_to_js) (ChartSpec.y_axis c))
       (put_optional "subtitle"
          (nullable_to_js JStr (ChartSpec.subtitle c))
          {[ "chart_type" := JStr (ChartType_value (ChartSpec.chart_type c));
             "title" := JStr (ChartSpec.title c);
             "series" :=
               JArr (JObj ∘ SeriesSpec_to_js <$> ChartSpec.series c);
             "x_axis" := JObj (AxisSpec_to_js (ChartSpec.x_axis c));
             "rationale" := JStr (ChartSpec.rationale c);
             "alternative_types" :=
               JArr (JStr ∘ ChartType_value
                       <$> ChartSpec.alternative_types c);
             "config" := JObj (ChartSpec.config c) ]})).

(** An object is an instance of an interface, as far as its keys go: it
    has no key the interface does not declare, and it has every property
    the interface requires. *)
Definition instance_of (interface : list Property)
    (o : gmap string JsValue) : Prop :=
  (∀ k, is_Some (o !! k) → k ∈ prop_name <$> interface)
  ∧ Forall (λ p, optional p = false → is_Some (o !! prop_name p)) interface.

End Schema.

(** ** The inference engine

    The engine is the back end's inference service (the chart inference
    module under backend/app/services), whose code is not among the
    sources; the front end only receives its output. It is modelled here
    from the specification, component by component. What the
    specification leaves to the implementation (date and number parsing,
    the wording of titles and rationales, how the fields of an unrecognised
    input are guessed) is a parameter of the model. *)

Module Engine.

(** Modelled from the spec: the detected pattern of section 3; the
    pattern detector's code is missing. *)
Inductive DetectedPattern : Type :=
| TimeSeries
| Categorical
| MultiSeries
| CategoryValueArrays
| Grid
| Unrecognized.

(** Modelled from the spec: the result of the type classifier of section
    4.1, whose code is missing. *)
Inductive SemanticKind : Type :=
| Temporal
| Numeric
| CategoricalText
| Unknown.

(** Modelled from the spec: the four kinds of section 4.1 can be told
    apart. *)
#[global] Instance SemanticKind_eq_dec : EqDecision SemanticKind.
Proof. solve_decision. Defined.

(** Modelled from the spec: an x value of a normalized series, a string,
    a number, or a timestamp in epoch milliseconds (section 3; the data
    extractor's code is missing). *)
Inductive XValue : Type :=
| XText (s : string)
| XNumber (n : number)
| XTimestamp (epoch_ms : number).

(** Modelled from the spec: the normalized series of section 3, a name
    and an ordered sequence of (x, y) pairs. *)
Record NormalizedSeries : Type := mkSeries {
  name : string;
  points : list (XValue * number);
}.

(** Modelled from the spec: the only condition the engine raises (section
    7), with its human-readable message. *)
Record ValidationError : Type := mkValidationError {
  message : string;
}.

(** Modelled from the spec: the answer of [validate] (section 6), one
    flag per structural pattern of section 4.2, under the names of the
    architecture notes where they name the flag (the grid flag is
    [is_heatmap] there). *)
Record PatternFlags : Type := mkFlags {
  is_heatmap : bool;
  is_multi_series : bool;
  is_time_series : bool;
  is_category_value_arrays : bool;
  is_categorical : bool;
}.

(** Modelled from the spec: what the sections on the classifier, the
    extractor, the axis builder and the rationale generator leave open.
    [parse_iso8601] gives the epoch milliseconds of a date or datetime
    string, [parse_numeric] the value of a string that parses fully as a
    number, [guess_point] the best-effort reading of one record of an
    unrecognised input; the others word the output. *)
Class Params : Type := {
  parse_iso8601 : string → option number;
  parse_numeric : string → option number;
  guess_point : gmap string JsValue → option (XValue * number);
  default_series_name : string;
  chart_title : DetectedPattern → string;
  chart_description : DetectedPattern → string;
  axis_title : string → string;
  rationale_template : ChartType → DetectedPattern → nat → string;
}.

(** Modelled from the spec: the raw input is an untyped tree of JSON
    values (section 3); the value as an object, if it is one. *)
Definition as_object (v : JsValue) : option (gmap string JsValue) :=
  match v with JObj m => Some m | _ => None end.

(** Modelled from the spec: the value as an ordered sequence (section 3),
    if it is one. *)
Definition as_array (v : JsValue) : option (list JsValue) :=
  match v with JArr l => Some l | _ => None end.

(** Modelled from the spec: the value is a number (section 4.1). *)
Definition is_number (v : JsValue) : bool :=
  match v with JNum _ => true | _ => false end.

(** Modelled from the spec: the array-valued key [k] of an object
    (section 4.2), if the object has one. *)
Definition array_at (k : string) (o : gmap string JsValue)
  : option (list JsValue) :=
  o !! k ≫= as_array.

(** Modelled from the spec: the records of an array (sections 4.2 and
    4.3), its elements that are objects. *)
Definition records (l : list JsValue) : list (gmap string JsValue) :=
  omap as_object l.

(** Modelled from the spec: field names are matched case-insensitively
    (section 4.1); the lower-case form of a letter. *)
Definition ascii_lower (c : Ascii.ascii) : Ascii.ascii :=
  let n := Ascii.nat_of_ascii c in
  if (65 <=? n)%nat && (n <=? 90)%nat then Ascii.ascii_of_nat (n + 32)
  else c.

(** Modelled from the spec: the lower-case form of a field name (section
    4.1). *)
Fixpoint lowercase (s : string) : string :=
  match s with
  | EmptyString => EmptyString
  | String c s' => String (ascii_lower c) (lowercase s')
  end.

(** Modelled from the spec: the temporal-name set of section 4.1. *)
Definition temporal_names : list string :=
  ["t"; "time"; "date"; "timestamp"; "x"].

(** Modelled from the spec: the field names that make a field categorical
    (sections 4.1 and 4.2). *)
Definition categorical_names : list string :=
  ["label"; "category"; "name"].

Section WithParams.
Context `{Params}.

(** Modelled from the spec: the kind of one value (section 4.1): a date
    string is temporal; a number or a numeric string is numeric; any other
    non-empty string is categorical; the rest is unknown. *)
Definition value_kind (v : JsValue) : SemanticKind :=
  match v with
  | JNum _ => Numeric
  | JStr s =>
      match parse_iso8601 s, parse_numeric s with
      | Some _, _ => Temporal
      | None, Some _ => Numeric
      | None, None =>
          if String.eqb s "" then Unknown else CategoricalText
      end
  | _ => Unknown
  end.

(** Modelled from the spec: the kind that covers a majority of the
    samples, [Unknown] when none does or the collection is empty (section
    4.1). *)
Definition majority (ks : list SemanticKind) : SemanticKind :=
  let covers k :=
    Nat.ltb (length ks) (2 * length (filter (λ k', k' = k) ks)) in
  if covers Temporal then Temporal
  else if covers Numeric then Numeric
  else if covers CategoricalText then CategoricalText
  else Unknown.

(** Modelled from the spec: the type classifier (section 4.1). The hints
    of the field name come before the values: a field literally named
    [label], [category] or [name] is categorical, a field whose name is a
    temporal name in any letter case is temporal. *)
Definition classify (field : string) (values : list JsValue)
  : SemanticKind :=
  if bool_decide (field ∈ categorical_names) then CategoricalText
  else if bool_decide (lowercase field ∈ temporal_names) then Temporal
  else majority (value_kind <$> values).

(** Modelled from the spec: the field names that occur in a list of
    records (section 4.1 classifies one field across all records). *)
Definition fields (rs : list (gmap string JsValue)) : list string :=
  elements (⋃ (dom <$> rs) : gset string).

(** Modelled from the spec: the values of one field drawn across all
    records (section 4.1). *)
Definition column (f : string) (rs : list (gmap string JsValue))
  : list JsValue :=
  omap (λ r, r !! f) rs.

(** Modelled from the spec: the records contain a field the classifier
    recognises as kind [k] (section 4.2, time series). *)
Definition has_field_of_kind (k : SemanticKind)
    (rs : list (gmap string JsValue)) : bool :=
  existsb (λ f, bool_decide (classify f (column f rs) = k)) (fields rs).

(** Modelled from the spec: the grid test of section 4.2: array-valued
    keys [rows], [columns] and [values], the last a sequence of sequences
    of numbers. *)
Definition matches_grid (o : gmap string JsValue) : bool :=
  match array_at "rows" o, array_at "columns" o, array_at "values" o with
  | Some _, Some _, Some vs =>
      forallb (λ v, match v with
                    | JArr row => forallb is_number row
                    | _ => false
                    end) vs
  | _, _, _ => false
  end.

(** Modelled from the spec: the multi-series test of section 4.2: a
    [series] array of objects, each with a [name] and an array of records
    (under [points], as in the scenarios of section 8). *)
Definition matches_multi_series (o : gmap string JsValue) : bool :=
  match array_at "series" o with
  | Some ss =>
      forallb (λ s, match s with
                    | JObj m =>
                        js_in "name" m
                        && match array_at "points" m with
                           | Some ps =>
                               forallb (λ p, bool_decide
                                               (is_Some (as_object p))) ps
                           | None => false
                           end
                    | _ => false
                    end) ss
  | None => false
  end.

(** Modelled from the spec: the time-series test of section 4.2: a
    [points] array whose records have a temporal field and a numeric
    field. *)
Definition matches_time_series (o : gmap string JsValue) : bool :=
  match array_at "points" o with
  | Some ps =>
      has_field_of_kind Temporal (records ps)
      && has_field_of_kind Numeric (records ps)
  | None => false
  end.

(** Modelled from the spec: the categories (or labels) array of section
    4.2. *)
Definition category_array (o : gmap string JsValue)
  : option (list JsValue) :=
  match array_at "categories" o with
  | Some cs => Some cs
  | None => array_at "labels" o
  end.

(** Modelled from the spec: the parallel-arrays test of section 4.2: a
    categories array and a [values] array of equal length. *)
Definition matches_category_value_arrays (o : gmap string JsValue)
  : bool :=
  match category_array o, array_at "values" o with
  | Some cs, Some vs => Nat.eqb (length cs) (length vs)
  | _, _ => false
  end.

(** Modelled from the spec: the categorical test of section 4.2: an
    [items] array with a record that has a categorical field and a numeric
    [value]. *)
Definition matches_categorical (o : gmap string JsValue) : bool :=
  match array_at "items" o with
  | Some items =>
      existsb (λ r, existsb (λ f, js_in f r) categorical_names
                    && match r !! "value" with
                       | Some v => bool_decide (value_kind v = Numeric)
                       | None => false
                       end)
              (records items)
  | None => false
  end.

(** Modelled from the spec: the pattern detector (section 4.2), first
    match in the fixed priority order. An input that is no object matches
    nothing. *)
Definition detect (data : JsValue) : DetectedPattern :=
  match data with
  | JObj o =>
      if matches_grid o then Grid
      else if matches_multi_series o then MultiSeries
      else if matches_time_series o then TimeSeries
      else if matches_category_value_arrays o then CategoryValueArrays
      else if matches_categorical o then Categorical
      else Unrecognized
  | _ => Unrecognized
  end.

(** Modelled from the spec: [validate] (section 6) runs the pattern
    detector only and reports which structural patterns matched. *)
Definition validate (data : JsValue) : PatternFlags :=
  match data with
  | JObj o =>
      mkFlags (matches_grid o) (matches_multi_series o)
              (matches_time_series o) (matches_category_value_arrays o)
              (matches_categorical o)
  | _ => mkFlags false false false false false
  end.

(** Modelled from the spec: the x value of a record (section 4.3). A
    temporal value becomes its epoch milliseconds. *)
Definition x_value (v : JsValue) : option XValue :=
  match v with
  | JStr s =>
      match parse_iso8601 s with
      | Some ms => Some (XTimestamp ms)
      | None => Some (XText s)
      end
  | JNum n => Some (XNumber n)
  | _ => None
  end.

(** Modelled from the spec: the y value of a record (section 4.3), a
    number or a numeric string. *)
Definition y_value (v : JsValue) : option number :=
  match v with
  | JNum n => Some n
  | JStr s => parse_numeric s
  | _ => None
  end.

(** Modelled from the spec: one (x, y) pair (section 3), when both
    values are usable. *)
Definition point_of (xv yv : JsValue) : option (XValue * number) :=
  x ← x_value xv; y ← y_value yv; Some (x, y).

(** Modelled from the spec: the pair of one record under the resolved
    field names; a record that misses an expected field is skipped
    (section 4.3). *)
Definition record_point (xf yf : string) (r : gmap string JsValue)
  : option (XValue * number) :=
  xv ← r !! xf; yv ← r !! yf; point_of xv yv.

(** Modelled from the spec: the pairs of the records of an array, in
    order, skipped records left out (section 4.3). *)
Definition points_of_records (xf yf : string) (l : list JsValue)
  : list (XValue * number) :=
  omap (record_point xf yf) (records l).

(** Modelled from the spec: an explicit field-name hint overrides the
    default of the pattern (section 4.3). *)
Definition hinted (hint : nullable string) (default : string) : string :=
  match hint with
  | Val f => f
  | _ => default
  end.

(** Modelled from the spec: one of the optional user hints (section 3);
    absent hints mean that everything is inferred. *)
Definition hint_of {A : Type} (hints : nullable UserHints.t)
    (key : UserHints.t → nullable A) : nullable A :=
  match hints with
  | Val h => key h
  | _ => Absent
  end.

(** Modelled from the spec: the conventional field names of each pattern
    (section 4.3): [t] and [value] for points, [label] and [value] for
    items, the names of the arrays for parallel arrays and grids. *)
Definition default_fields (p : DetectedPattern) : string * string :=
  match p with
  | TimeSeries | MultiSeries => ("t", "value")
  | Categorical | Unrecognized => ("label", "value")
  | CategoryValueArrays => ("categories", "values")
  | Grid => ("columns", "values")
  end.

(** Modelled from the spec: the field resolution order of section 4.3. *)
Definition resolved_fields (p : DetectedPattern)
    (hints : nullable UserHints.t) : string * string :=
  (hinted (hint_of hints UserHints.x_field) (default_fields p).1,
   hinted (hint_of hints UserHints.y_field) (default_fields p).2).

(** Modelled from the spec: the name of a series (section 3), the default
    name when the input gives none. *)
Definition series_name (v : option JsValue) : string :=
  match v with
  | Some (JStr n) => n
  | _ => default_series_name
  end.

(** Modelled from the spec: the pairs of two parallel arrays (section
    4.2, pattern 4). *)
Definition zip_points (xs ys : list JsValue) : list (XValue * number) :=
  omap (λ xy, point_of xy.1 xy.2) (zip xs ys).

(** Modelled from the spec: the series each pattern yields (section 4.3).
    An unrecognised input is read record by record, best effort, from the
    arrays of the top-level object. *)
Definition extract_series (p : DetectedPattern) (xf yf : string)
    (o : gmap string JsValue) : list NormalizedSeries :=
  match p with
  | TimeSeries =>
      [mkSeries default_series_name
         (points_of_records xf yf (default [] (array_at "points" o)))]
  | Categorical =>
      [mkSeries default_series_name
         (points_of_records xf yf (default [] (array_at "items" o)))]
  | MultiSeries =>
      (λ s, mkSeries (series_name (s !! "name"))
              (points_of_records xf yf
                 (default [] (array_at "points" s))))
        <$> records (default [] (array_at "series" o))
  | CategoryValueArrays =>
      [mkSeries default_series_name
         (zip_points (default [] (category_array o))
                     (default [] (array_at "values" o)))]
  | Grid =>
      (λ rv, mkSeries (series_name (Some rv.1))
               (zip_points (default [] (array_at "columns" o))
                           (default [] (as_array rv.2))))
        <$> zip (default [] (array_at "rows" o))
                (default [] (array_at "values" o))
  | Unrecognized =>
      [mkSeries default_series_name
         (omap guess_point
            (records (mjoin (omap as_array (snd <$> map_to_list o)))))]
  end.

(** Modelled from the spec: the condition "no usable data points" of
    section 4.3, raised as a validation error (section 7). *)
Definition no_usable_data : ValidationError :=
  mkValidationError "No usable data points found in the input".

(** Modelled from the spec: the data extractor (section 4.3). Extraction
    fails when a series has lost all its records, or when there is no
    series at all; otherwise it returns the series and the resolved field
    names. *)
Definition extract (p : DetectedPattern) (hints : nullable UserHints.t)
    (data : JsValue)
  : list NormalizedSeries * (string * string) + ValidationError :=
  let '(xf, yf) := resolved_fields p hints in
  let series := extract_series p xf yf (default ∅ (as_object data)) in
  if bool_decide (series = [])
     || existsb (λ s, Nat.eqb (length (points s)) 0) series
  then inr no_usable_data
  else inl (series, (xf, yf)).

(** Modelled from the spec: the x value is a timestamp (section 4.4 asks
    whether all sub-series are temporal). *)
Definition is_timestamp (x : XValue) : bool :=
  match x with XTimestamp _ => true | _ => false end.

(** Modelled from the spec: the pattern-default mapping of the chart type
    selector (section 4.4): the chosen type and its alternatives by
    decreasing fit. *)
Definition default_types (p : DetectedPattern)
    (series : list NormalizedSeries) : ChartType * list ChartType :=
  match p with
  | TimeSeries => (LINE, [AREA; COLUMN])
  | Categorical =>
      if bool_decide ((length ∘ points <$> series) = [1%nat])
      then (PIE, [COLUMN; BAR])
      else (COLUMN, [BAR; PIE])
  | MultiSeries =>
      if forallb (λ s, forallb (λ xy, is_timestamp xy.1) (points s)) series
      then (LINE, [BAR])
      else (BAR, [LINE])
  | CategoryValueArrays => (COLUMN, [BAR; PIE])
  | Grid => (HEATMAP, [])
  | Unrecognized => (COLUMN, [BAR])
  end.

(** Modelled from the spec: a hint is structurally compatible unless it
    asks for a pie chart of a multi-series input with more than one series
    (section 4.4). *)
Definition compatible (hint : ChartType) (p : DetectedPattern)
    (count : nat) : bool :=
  negb (bool_decide (hint = PIE)
        && match p with MultiSeries => true | _ => false end
        && Nat.ltb 1 count).

(** Modelled from the spec: the chart type selector (section 4.4). A
    compatible hint is honoured, any other is ignored silently; the
    alternatives leave out the chosen type and number at most two. *)
Definition select (p : DetectedPattern) (series : list NormalizedSeries)
    (hint : nullable ChartType) : ChartType * list ChartType :=
  let '(chosen, alternatives) := default_types p series in
  match hint with
  | Val c =>
      if compatible c p (length series)
      then (c, take 2 (filter (λ a, a ≠ c) (chosen :: alternatives)))
      else (chosen, alternatives)
  | _ => (chosen, alternatives)
  end.

(** Modelled from the spec: the kind of a normalized x value, for the
    dominant kind of section 4.5. *)
Definition x_kind (x : XValue) : SemanticKind :=
  match x with
  | XText _ => CategoricalText
  | XNumber _ => Numeric
  | XTimestamp _ => Temporal
  end.

(** Modelled from the spec: the unit or format a hint map gives a field,
    unset when it gives none (section 4.5). *)
Definition hint_for (field : string)
    (m : nullable (gmap string string)) : nullable string :=
  match m with
  | Val m => match m !! field with Some v => Val v | None => Null end
  | _ => Null
  end.

(** Modelled from the spec: the semantic axis type of a dominant kind
    (section 4.5): temporal gives [datetime], numeric with the hint [log]
    gives [log], numeric gives [linear], anything else [category]. *)
Definition axis_type (k : SemanticKind) (format : nullable string)
  : string :=
  match k with
  | Temporal => "datetime"
  | Numeric =>
      match format with
      | Val "log" => "log"
      | _ => "linear"
      end
  | _ => "category"
  end.

(** Modelled from the spec: one axis (section 4.5). Unit and format are
    copied from the hints of the field; the bounds stay unset. *)
Definition build_axis (field : string) (k : SemanticKind)
    (hints : nullable UserHints.t) : AxisSpec.t :=
  let format := hint_for field (hint_of hints UserHints.formatting) in
  AxisSpec.mk (axis_title field) (Val field) (axis_type k format)
    (hint_for field (hint_of hints UserHints.units)) format Null Null.

(** Modelled from the spec: the x value as it stands in a formatted point
    (section 4.6), a timestamp by its epoch milliseconds. *)
Definition x_scalar (x : XValue) : Scalar :=
  match x with
  | XText s => SStr s
  | XNumber n => SNum n
  | XTimestamp ms => SNum ms
  end.

(** Modelled from the spec: the series formatter on one point (section
    4.6): a name/y record for a pie chart, an x/y pair for any other
    type. *)
Definition format_point (chosen : ChartType) (xy : XValue * number)
  : DataPoint :=
  if decide (chosen = PIE)
  then PRecord {[ "name" := Scalar_to_js (x_scalar xy.1);
                  "y" := JNum xy.2 ]}
  else PArray [x_scalar xy.1; SNum xy.2].

(** Modelled from the spec: the series formatter on one series (section
    4.6), on the primary axis and with no colour or type of its own. *)
Definition format_series (chosen : ChartType) (s : NormalizedSeries)
  : SeriesSpec.t :=
  SeriesSpec.mk (name s) (format_point chosen <$> points s)
                Null Null 0%float.

(** Modelled from the spec: [infer] (section 6), along the control flow
    of section 2: detect the pattern, extract the series, select the type,
    build the axes, format the series, word the rationale, assemble. The
    y axis is absent for a pie chart (section 4.5). *)
Definition infer (data : JsValue) (hints : nullable UserHints.t)
  : ChartSpec.t + ValidationError :=
  let p := detect data in
  match extract p hints data with
  | inr e => inr e
  | inl (series, (xf, yf)) =>
      let '(chosen, alternatives) :=
        select p series (hint_of hints UserHints.preferred_chart_type) in
      let xk := majority (x_kind ∘ fst <$> (series ≫= points)) in
      inl (ChartSpec.mk chosen (chart_title p) Null
             (format_series chosen <$> series)
             (build_axis xf xk hints)
             (if decide (chosen = PIE) then Null
              else Val (build_axis yf Numeric hints))
             (rationale_template chosen p (length series))
             alternatives
             (Val (chart_description p))
             ∅)
  end.

End WithParams.
End Engine.

(** ** components/JsonInput.tsx: the other handlers and the form as a
    whole *)

Module JsonInputForm.
Import JsonInput.

(** The setters of the remaining state variables. *)
Definition setJsonText (text : string) (st : State) : State :=
  mkState text (error st) (preferredChartType st) (xField st) (yField st).

Definition setPreferredChartType (c : option ChartType) (st : State)
  : State :=
  mkState (jsonText st) (error st) c (xField st) (yField st).

Definition setXField (x : string) (st : State) : State :=
  mkState (jsonText st) (error st) (preferredChartType st) x (yField st).

Definition setYField (y : string) (st : State) : State :=
  mkState (jsonText st) (error st) (preferredChartType st) (xField st) y.

(** The state of the first render: every [useState] initial value. *)
Definition initial : State := mkState "" None None "" "".

(** [loadExample(example)] *)
Definition loadExample (example : string) (st : State) : State :=
  setError None (setJsonText example st).

(** What reading the chosen file comes to: its text ([reader.onload]) or
    a failure ([reader.onerror]). *)
Inductive FileRead : Type :=
| Loaded (text : string)
| Failed.

(** [handleFileUpload], with the outcome of the read it starts: nothing
    happens without a file; a text read replaces the JSON text and clears
    the error; a failed read sets the error. *)
Definition handleFileUpload (file : option FileRead) (st : State) : State :=
  match file with
  | None => st
  | Some (Loaded text) => setError None (setJsonText text st)
  | Some Failed => setError (Some "Failed to read file") st
  end.

(** What the user and the file reader can do to the form. A click on the
    button comes with the [isLoading] prop of that render. *)
Inductive Event : Type :=
| TextChanged (value : string)
| ChartTypeSelected (value : option ChartType)
| XFieldChanged (value : string)
| YFieldChanged (value : string)
| ExampleClicked (example : string)
| FileChosen (file : option FileRead)
| SubmitClicked (isLoading : bool).

Section WithRuntime.
Context `{JsRuntime} `{JsonInputProps}.

(** The [disabled] attribute of the submit button:
    [!jsonText.trim() || isLoading]. *)
Definition submit_disabled (st : State) (isLoading : bool) : bool :=
  negb (truthy (js_trim (jsonText st))) || isLoading.

(** One event: the new state, and the request handed to [onSubmit] if
    there is one. The textarea's handler sets the text and clears the
    error; a disabled button does not react. *)
Definition step (st : State) (e : Event) : State * option ChartRequest.t :=
  match e with
  | TextChanged value => (setError None (setJsonText value st), None)
  | ChartTypeSelected value => (setPreferredChartType value st, None)
  | XFieldChanged value => (setXField value st, None)
  | YFieldChanged value => (setYField value st, None)
  | ExampleClicked example => (loadExample example st, None)
  | FileChosen file => (handleFileUpload file st, None)
  | SubmitClicked isLoading =>
      if submit_disabled st isLoading then (st, None) else handleSubmit st
  end.

(** A sequence of events: the final state and the requests handed to
    [onSubmit], in order. *)
Fixpoint run (st : State) (events : list Event)
  : State * list ChartRequest.t :=
  match events with
  | [] => (st, [])
  | e :: events =>
      let '(st', request) := step st e in
      let '(final, requests) := run st' events in
      (final, (option_list request ++ requests)%list)
  end.

End WithRuntime.
End JsonInputForm.

(** ** App.tsx: the chart on display *)

Module App.

(** What a call of the generate endpoint comes to: the chart
    specification, or a rejection. *)
Inductive Response : Type :=
| Fulfilled (result : ChartSpec.t)
| Rejected (err : JsValue).

(** [handleSubmit] once the awaited call has settled: a result replaces
    the chart on display ([setChartSpec]); a rejection is logged and
    leaves the state alone. *)
Definition handleSubmit (response : Response)
    (chartSpec : option ChartSpec.t) : option ChartSpec.t :=
  match response with
  | Fulfilled result => Some result
  | Rejected _ => chartSpec
  end.

(** [handleSubmit] as the [onSubmit] prop of the form: the call of an
    [async] function returns a promise and never throws. *)
Definition props : JsonInput.JsonInputProps :=
  {| JsonInput.onSubmit _ := JsonInput.Returned |}.

(** The chart on display after a sequence of settled calls, starting from
    [useState(null)]. *)
Definition chart_after (responses : list Response) : option ChartSpec.t :=
  foldl (λ chartSpec response, handleSubmit response chartSpec)
        None responses.

Section WithRuntime.
Context `{JsRuntime}.

(** The text after "Error:": the [detail] of the response body when the
    error carries an object as [data] and that object has a [detail],
    a fixed sentence otherwise. An array is an object without [detail];
    [null] is excluded by the guard. *)
Definition error_text (err : gmap string JsValue) : Completion string :=
  match err !! "data" with
  | Some (JObj data) =>
      if js_in "detail" data then String_of (js_get data "detail")
      else Returns "Failed to generate chart. Please check your JSON data."
  | _ => Returns "Failed to generate chart. Please check your JSON data."
  end.

End WithRuntime.
End App.

(** ** components/ChartDisplay.tsx: the table as it is rendered

    The cells of the table read the rows through [Object.values] and
    through property reads, so the order of the keys of a row and the
    members a row inherits matter here. *)

Module ChartTable.

(** Truthiness of a value: [undefined], [null], [false], zero, [NaN] and
    the empty string are falsy. *)
Definition js_truthy (v : JsValue) : bool :=
  match v with
  | JUndefined | JNull => false
  | JBool b => b
  | JNum n => negb (PrimFloat.is_zero n || PrimFloat.is_nan n)
  | JStr s => truthy s
  | JArr _ | JObj _ => true
  end.

(** [v || ""] *)
Definition or_empty (v : JsValue) : JsValue :=
  if js_truthy v then v else JStr "".

(** The value of a decimal digit. *)
Definition digit (c : Ascii.ascii) : option N :=
  let n := Ascii.N_of_ascii c in
  if (48 <=? n)%N && (n <=? 57)%N then Some (n - 48)%N else None.

Fixpoint numeral_value (s : string) (acc : N) : option N :=
  match s with
  | EmptyString => Some acc
  | String c s' => d ← digit c; numeral_value s' (10 * acc + d)%N
  end.

(** The array index a key is, if it is one: a decimal numeral without
    leading zero, below [2^32 - 1]. *)
Definition array_index (k : string) : option N :=
  match k with
  | EmptyString => None
  | String c rest =>
      if (Ascii.N_of_ascii c =? 48)%N
      then (if String.eqb rest "" then Some 0%N else None)
      else n ← numeral_value k 0;
           if (n <? 4294967295)%N then Some n else None
  end.

(** An object with its own properties in the order of their creation. *)
Abbreviation OrderedObject := (list (string * JsValue)).

(** The own property [k]. *)
Fixpoint own (k : string) (o : OrderedObject) : option JsValue :=
  match o with
  | [] => None
  | (k', v) :: o' => if String.eqb k' k then Some v else own k o'
  end.

(** Writing an existing own property keeps its place. *)
Fixpoint replace_value (k : string) (v : JsValue) (o : OrderedObject)
  : OrderedObject :=
  match o with
  | [] => []
  | (k', v') :: o' =>
      if String.eqb k' k then (k', v) :: o'
      else (k', v') :: replace_value k v o'
  end.

(** [o[k] = v] for an own or new data property: a new property comes
    last. *)
Definition define (k : string) (v : JsValue) (o : OrderedObject)
  : OrderedObject :=
  match own k o with
  | Some _ => replace_value k v o
  | None => o ++ [(k, v)]
  end.

(** [row[k] = v] for a primitive [v], as [assign_primitive], keeping the
    order of creation. *)
Definition assign_ordered (k : string) (x : Scalar) (row : OrderedObject)
  : OrderedObject :=
  if String.eqb k "__proto__" then row else define k (Scalar_to_js x) row.

Fixpoint insert_by_index (n : N) (v : JsValue) (l : list (N * JsValue))
  : list (N * JsValue) :=
  match l with
  | [] => [(n, v)]
  | (m, w) :: l' =>
      if (n <? m)%N then (n, v) :: l else (m, w) :: insert_by_index n v l'
  end.

(** The properties whose key is an array index, by ascending index. *)
Definition indexed_values (o : OrderedObject) : list (N * JsValue) :=
  foldr (λ e acc, match array_index e.1 with
                  | Some n => insert_by_index n e.2 acc
                  | None => acc
                  end) [] o.

(** The values of the other properties, in the order of creation. *)
Definition named_values (o : OrderedObject) : list JsValue :=
  omap (λ e, match array_index e.1 with
             | Some _ => None
             | None => Some e.2
             end) o.

(** [Object.values(o)]: array-index keys first, by ascending index, then
    the other keys in the order of their creation. *)
Definition Object_values (o : OrderedObject) : list JsValue :=
  (snd <$> indexed_values o) ++ named_values o.

(** The body of [spec.series.forEach], on a row with its key order. *)
Definition fill_cell_ordered (spec : ChartSpec.t) (i : nat)
    (row : OrderedObject) (series : SeriesSpec.t) : OrderedObject :=
  match SeriesSpec.data series !! i with
  | Some (PArray (x :: y :: _)) =>
      assign_ordered (SeriesSpec.name series) y
        (assign_ordered (AxisSpec.title (ChartSpec.x_axis spec)) x row)
  | Some (PNumber n) =>
      assign_ordered (SeriesSpec.name series) (SNum n) row
  | _ => row
  end.

Definition build_row_ordered (spec : ChartSpec.t) (i : nat)
  : OrderedObject :=
  foldl (fill_cell_ordered spec i) [] (ChartSpec.series spec).

(** The rows of a chart that is not a pie chart, with their key order. *)
Definition ordered_rows (spec : ChartSpec.t) : list OrderedObject :=
  build_row_ordered spec <$>
    seq 0 (loop_count
             (Math_max ((λ s, length (SeriesSpec.data s))
                          <$> ChartSpec.series spec))).

(** The members every object created by [{}] inherits from
    [Object.prototype]. *)
Definition Object_prototype_names : list string :=
  ["constructor"; "__defineGetter__"; "__defineSetter__"; "hasOwnProperty";
   "__lookupGetter__"; "__lookupSetter__"; "isPrototypeOf";
   "propertyIsEnumerable"; "toString"; "valueOf"; "__proto__";
   "toLocaleString"].

(** What [row[k]] reads: an own value, an inherited member, or
    nothing. *)
Inductive Read : Type :=
| OwnValue (v : JsValue)
| Inherited (k : string)
| NotFound.

Definition read (row : OrderedObject) (k : string) : Read :=
  match own k row with
  | Some v => OwnValue v
  | None =>
      if bool_decide (k ∈ Object_prototype_names) then Inherited k
      else NotFound
  end.

(** The content of a cell: a text, a number, or the text [String] makes
    of an inherited member (a function, or the prototype itself). *)
Inductive Cell : Type :=
| Text (s : string)
| Number (n : number)
| InheritedText (k : string).

(** The cells of the header row. *)
Definition header (spec : ChartSpec.t) : list string :=
  if decide (ChartSpec.chart_type spec = PIE) then ["Name"; "Value"]
  else AxisSpec.title (ChartSpec.x_axis spec)
       :: (SeriesSpec.name <$> ChartSpec.series spec).

Section WithRuntime.
Context `{JsRuntime}.

(** [String(row[s.name] || "")]: an inherited member is truthy. The own
    values of a row are numbers and strings, on which [String] does not
    throw. *)
Definition series_cell (row : OrderedObject) (s : SeriesSpec.t) : Cell :=
  match read row (SeriesSpec.name s) with
  | OwnValue v => Text (js_String (or_empty v))
  | Inherited k => InheritedText k
  | NotFound => Text (js_String (JStr ""))
  end.

(** [String(Object.values(row)[0] || "")] *)
Definition first_cell (row : OrderedObject) : Cell :=
  Text (js_String (or_empty (default JUndefined (head (Object_values row))))).

(** The cells of a body row of a chart that is not a pie chart. *)
Definition render_row (spec : ChartSpec.t) (row : OrderedObject)
  : list Cell :=
  first_cell row :: (series_cell row <$> ChartSpec.series spec).

(** The cells of a body row of a pie chart:
    [String(row.name)] and [Number(row.value)]. *)
Definition render_pie_row (row : ChartDisplay.PieRow) : list Cell :=
  [Text (js_String (JStr (ChartDisplay.name row)));
   Number (js_Number (JNum (ChartDisplay.value row)))].

(** The rows of the table body. When the memo throws, so does the
    render, and there is no table. *)
Definition body (spec : ChartSpec.t) : Completion (list (list Cell)) :=
  data ← ChartDisplay.tableData spec;
  match data with
  | ChartDisplay.PieRows rows => Returns (render_pie_row <$> rows)
  | ChartDisplay.SeriesRows _ => Returns (render_row spec <$> ordered_rows spec)
  end.

End WithRuntime.
End ChartTable.

(** * Concrete chart specifications

    The response of the architecture notes for the time-series request,
    the pie chart of a single categorical item, and variants of them. *)

Definition time_axis : AxisSpec.t :=
  AxisSpec.mk "Time" (Val "t") "datetime" Null (Val "%Y-%m-%d") Null Null.

Definition value_axis : AxisSpec.t :=
  AxisSpec.mk "Value" (Val "value") "linear" (Val "kg") Null Null Null.

Definition series_1 : SeriesSpec.t :=
  SeriesSpec.mk "Series 1"
    [PArray [SNum 1733011200000%float; SNum 10%float];
     PArray [SNum 1733097600000%float; SNum 15%float]]
    Null Null 0%float.

Definition line_spec : ChartSpec.t :=
  ChartSpec.mk LINE "Time Series Data" Null [series_1] time_axis
    (Val value_axis)
    "Line chart selected because data appears to be a time series with 1 series. Line charts are ideal for showing trends over time."
    [AREA; COLUMN] (Val "Chart showing time series data") ∅.

Definition category_axis : AxisSpec.t :=
  AxisSpec.mk "Category" (Val "label") "category" Null Null Null Null.

Definition pie_series : SeriesSpec.t :=
  SeriesSpec.mk "Series 1"
    [PRecord {[ "name" := JStr "A"; "y" := JNum 45%float ]}]
    Null Null 0%float.

Definition pie_spec : ChartSpec.t :=
  ChartSpec.mk PIE "Categorical Data" Null [pie_series] category_axis Null
    "Pie chart selected because data has a single category."
    [COLUMN; BAR] Null ∅.

(** The same pie chart with an axis passed through [config]. *)
Definition pie_spec_axis_in_config : ChartSpec.t :=
  ChartSpec.mk PIE "Categorical Data" Null [pie_series] category_axis Null
    "Pie chart selected because data has a single category."
    [COLUMN; BAR] Null
    {[ "xAxis" := JObj {[ "visible" := JBool true ]} ]}.

(** The line chart with a [config] that replaces the computed [chart]
    entry. *)
Definition line_spec_chart_in_config : ChartSpec.t :=
  ChartSpec.mk LINE "Time Series Data" Null [series_1] time_axis
    (Val value_axis) "" [AREA; COLUMN] Null
    {[ "chart" := JObj {[ "type" := JStr "spline" ]} ]}.

(** A line chart whose two axes both carry the semantic type [datetime]. *)
Definition duration_axis : AxisSpec.t :=
  AxisSpec.mk "Finished" (Val "end") "datetime" Null Null Null Null.

Definition datetime_spec : ChartSpec.t :=
  ChartSpec.mk LINE "Start and end" Null [series_1] time_axis
    (Val duration_axis) "" [] Null ∅.

(** A column chart whose series holds bare numbers next to a pair and a
    record. *)
Definition mixed_series : SeriesSpec.t :=
  SeriesSpec.mk "count"
    [PNumber 5%float; PArray [SStr "b"; SNum 7%float];
     PRecord {[ "name" := JStr "c"; "y" := JNum 9%float ]}]
    Null Null 0%float.

Definition short_series : SeriesSpec.t :=
  SeriesSpec.mk "other" [PArray [SStr "a"; SNum 1%float]] Null Null 0%float.

Definition column_spec : ChartSpec.t :=
  ChartSpec.mk COLUMN "Counts" Null [mixed_series; short_series]
    category_axis (Val value_axis) "" [BAR] Null ∅.

(** A runtime for the closed examples. It is exact where the examples
    use it: [String] of a string, [Number] of a number, [trim] on ASCII
    white space, and [JSON.parse] of the text of the empty object; on
    other arguments it stands for the real built-in only roughly
    ([Number] of a non-number is [NaN], any other text fails to parse). *)
Definition is_ascii_space (c : Ascii.ascii) : bool :=
  bool_decide (Ascii.nat_of_ascii c ∈ [9; 10; 11; 12; 13; 32]%nat).

Fixpoint trim_start (s : string) : string :=
  match s with
  | String c s' => if is_ascii_space c then trim_start s' else s
  | EmptyString => s
  end.

Definition ascii_trim (s : string) : string :=
  String.rev (trim_start (String.rev (trim_start s))).

#[local] Instance example_runtime : JsRuntime := {|
  js_String v := match v with JStr s => s | _ => "" end;
  js_Number v := match v with JNum n => n | _ => nan end;
  js_trim := ascii_trim;
  JSON_parse s :=
    if String.eqb (ascii_trim s) "{}" then inl (JObj ∅)
    else inr "Unexpected token";
|}.

(** The callback of the closed examples is the one [App] passes. *)
#[local] Instance example_props : JsonInput.JsonInputProps := App.props.

(** The form filled with the text of the empty object, the area chart
    selected, [t] typed between blanks as the x field, and no y field;
    and the request it submits. *)
Definition area_form : JsonInput.State :=
  JsonInput.mkState "{}" None (Some AREA) "  t " "".

Definition area_request : ChartRequest.t :=
  ChartRequest.mk (JObj ∅)
    (Val (UserHints.mk (Val AREA) (Val "t") Absent Absent Absent)).

(** The same form with nothing selected or typed. *)
Definition blank_form : JsonInput.State :=
  JsonInput.mkState "{}" (Some "Invalid JSON: Unexpected token") None "   " "".

(** Engine parameters for the closed examples: the dates of the
    scenarios with their epoch milliseconds, no numeric strings, records of
    unrecognised inputs left unread, and the wording of the architecture
    notes. *)
#[local] Instance example_params : Engine.Params := {|
  Engine.parse_iso8601 s :=
    if String.eqb s "2025-12-01" then Some 1764547200000%float
    else if String.eqb s "2025-12-02" then Some 1764633600000%float
    else None;
  Engine.parse_numeric _ := None;
  Engine.guess_point _ := None;
  Engine.default_series_name := "Series 1";
  Engine.chart_title p :=
    match p with
    | Engine.TimeSeries => "Time Series Data"
    | _ => "Chart"
    end;
  Engine.chart_description p :=
    match p with
    | Engine.TimeSeries => "Chart showing time series data"
    | _ => "Chart"
    end;
  Engine.axis_title f :=
    if String.eqb f "t" then "Time"
    else if String.eqb f "value" then "Value" else f;
  Engine.rationale_template c p n := ChartType_value c ++ " chart selected";
|}.

Definition point_record (t : string) (v : number) : JsValue :=
  JObj {[ "t" := JStr t; "value" := JNum v ]}.

(** The inputs of the scenarios: two dated points, one labelled item, the
    empty object, and two named series. *)
Definition points_input : JsValue :=
  JObj {[ "points" := JArr [point_record "2025-12-01" 10%float;
                            point_record "2025-12-02" 15%float] ]}.

Definition items_input : JsValue :=
  JObj {[ "items" := JArr [JObj {[ "label" := JStr "A";
                                   "value" := JNum 45%float ]}] ]}.

Definition empty_input : JsValue := JObj ∅.

Definition series_input : JsValue :=
  JObj {[ "series" :=
            JArr [JObj {[ "name" := JStr "CPU";
                          "points" := JArr [point_record "2025-12-01" 50%float] ]};
                  JObj {[ "name" := JStr "Memory";
                          "points" := JArr [point_record "2025-12-01" 60%float] ]}] ]}.

(** * The vocabulary of the properties *)

(** The shapes of a data point the components tell apart. *)
Definition is_name_y_record (p : DataPoint) : bool :=
  match p with
  | PRecord r => js_in "name" r && js_in "y" r
  | _ => false
  end.

(** A name/y record whose name or y value cannot be converted to a
    primitive. *)
Definition conversion_fails (p : DataPoint) : bool :=
  match p with
  | PRecord r =>
      js_in "name" r && js_in "y" r
      && (ToPrimitive_throws (js_get r "name")
          || ToPrimitive_throws (js_get r "y"))
  | _ => false
  end.

(** The row a name/y record gives when its conversions return. *)
Definition pie_record `{JsRuntime} (p : DataPoint)
  : option ChartDisplay.PieRow :=
  match p with
  | PRecord r =>
      if js_in "name" r && js_in "y" r
      then Some (ChartDisplay.mkPieRow (js_String (js_get r "name"))
                                       (js_Number (js_get r "y")))
      else None
  | _ => None
  end.

Definition is_xy_pair (p : DataPoint) : bool :=
  match p with
  | PArray (_ :: _ :: _) => true
  | _ => false
  end.

Definition is_bare_number (p : DataPoint) : bool :=
  match p with
  | PNumber _ => true
  | _ => false
  end.

(** The Highcharts type that goes with a semantic axis type on the x
    axis. *)
Definition x_type_mapped (t ty : string) : Prop :=
  (t = "datetime" → ty = "datetime")
  ∧ (t = "log" → ty = "logarithmic")
  ∧ (t = "category" → ty = "category")
  ∧ (t ≠ "datetime" → t ≠ "log" → t ≠ "category" → ty = "linear").

(** A bound is passed through unchanged; [null] (and a missing bound)
    become [undefined]. *)
Definition bound_passed (b : nullable number) (v : JsValue) : Prop :=
  match b with
  | Val n => v = JNum n
  | Null | Absent => v = JUndefined
  end.

(** The y-axis title: the unit in parentheses after the title when the
    unit is a non-empty string, the bare title otherwise. *)
Definition y_title_rendered (a : AxisSpec.t) (text : string) : Prop :=
  match AxisSpec.unit a with
  | Val u =>
      if decide (u = "") then text = AxisSpec.title a
      else text = AxisSpec.title a ++ " (" ++ u ++ ")"
  | Null | Absent => text = AxisSpec.title a
  end.

(** The request carries the hint key read by [key]. *)
Definition request_has {A : Type} (key : UserHints.t → nullable A)
    (req : ChartRequest.t) : Prop :=
  ∃ h, ChartRequest.hints req = Val h ∧ key h ≠ Absent.


(** * Further vocabulary: what the converter reads of a specification *)

Set Warnings "-clear-no-such-hyp".

(** The same specification with another [config]. *)
Definition with_config (c : gmap string JsValue) (spec : ChartSpec.t)
  : ChartSpec.t :=
  ChartSpec.mk (ChartSpec.chart_type spec) (ChartSpec.title spec)
    (ChartSpec.subtitle spec) (ChartSpec.series spec)
    (ChartSpec.x_axis spec) (ChartSpec.y_axis spec)
    (ChartSpec.rationale spec) (ChartSpec.alternative_types spec)
    (ChartSpec.description spec) c.

(** Two series that differ at most in what the converter does not read
    (the per-series [type]) or does not tell apart (an empty, [null] or
    missing [color]). *)
Definition series_alike (s s' : SeriesSpec.t) : Prop :=
  SeriesSpec.name s = SeriesSpec.name s'
  ∧ SeriesSpec.data s = SeriesSpec.data s'
  ∧ truthy_text (SeriesSpec.color s) = truthy_text (SeriesSpec.color s')
  ∧ SeriesSpec.y_axis s = SeriesSpec.y_axis s'.

(** Two x axes that differ at most in [field], [unit], [format], in a
    [null] against a missing bound, or in two semantic types of the same
    Highcharts type. *)
Definition x_axis_alike (a a' : AxisSpec.t) : Prop :=
  AxisSpec.title a = AxisSpec.title a'
  ∧ chartConverter.xAxis_type (AxisSpec.type a)
    = chartConverter.xAxis_type (AxisSpec.type a')
  ∧ nullish_undefined (AxisSpec.min a) = nullish_undefined (AxisSpec.min a')
  ∧ nullish_undefined (AxisSpec.max a) = nullish_undefined (AxisSpec.max a').

(** The same for y axes, where the unit counts when it is a non-empty
    string. *)
Definition y_axis_alike (a a' : AxisSpec.t) : Prop :=
  AxisSpec.title a = AxisSpec.title a'
  ∧ truthy_text (AxisSpec.unit a) = truthy_text (AxisSpec.unit a')
  ∧ chartConverter.yAxis_type (AxisSpec.type a)
    = chartConverter.yAxis_type (AxisSpec.type a')
  ∧ nullish_undefined (AxisSpec.min a) = nullish_undefined (AxisSpec.min a')
  ∧ nullish_undefined (AxisSpec.max a) = nullish_undefined (AxisSpec.max a').

Definition optional_axis_alike (a a' : nullable AxisSpec.t) : Prop :=
  match a, a' with
  | Val a, Val a' => y_axis_alike a a'
  | Val _, _ | _, Val _ => False
  | _, _ => True
  end.

(** Two specifications the converter cannot tell apart. The axes of a pie
    chart are not read at all; [rationale] and [alternative_types] never
    are. *)
Definition converted_alike (spec spec' : ChartSpec.t) : Prop :=
  ChartSpec.chart_type spec = ChartSpec.chart_type spec'
  ∧ ChartSpec.title spec = ChartSpec.title spec'
  ∧ truthy_text (ChartSpec.subtitle spec)
    = truthy_text (ChartSpec.subtitle spec')
  ∧ truthy_text (ChartSpec.description spec)
    = truthy_text (ChartSpec.description spec')
  ∧ Forall2 series_alike (ChartSpec.series spec) (ChartSpec.series spec')
  ∧ (ChartSpec.chart_type spec ≠ PIE →
     x_axis_alike (ChartSpec.x_axis spec) (ChartSpec.x_axis spec')
     ∧ optional_axis_alike (ChartSpec.y_axis spec) (ChartSpec.y_axis spec'))
  ∧ ChartSpec.config spec = ChartSpec.config spec'.

(** The line chart of the architecture notes written differently: a
    per-series type, an empty colour and subtitle, a missing bound, other
    field names, another rationale. *)
Definition series_1_restyled : SeriesSpec.t :=
  SeriesSpec.mk "Series 1"
    [PArray [SNum 1733011200000%float; SNum 10%float];
     PArray [SNum 1733097600000%float; SNum 15%float]]
    (Val "spline") (Val "") 0%float.

Definition line_spec_restyled : ChartSpec.t :=
  ChartSpec.mk LINE "Time Series Data" (Val "") [series_1_restyled]
    (AxisSpec.mk "Time" Null "datetime" (Val "s") Null Absent Null)
    (Val (AxisSpec.mk "Value" Null "number" (Val "kg") (Val ".2f")
            Null Absent))
    "" [] (Val "Chart showing time series data") ∅.

(** The cell a data point fills under the name of its series: the y value
    of a pair, a bare number itself, nothing for any other point or for no
    point. *)
Definition cell_of (p : option DataPoint) : option JsValue :=
  match p with
  | Some (PArray (_ :: y :: _)) => Some (Scalar_to_js y)
  | Some (PNumber n) => Some (JNum n)
  | _ => None
  end.

(** The x value of a pair. *)
Definition x_of (p : option DataPoint) : option JsValue :=
  match p with
  | Some (PArray (x :: _ :: _)) => Some (Scalar_to_js x)
  | _ => None
  end.

(** A pie chart with a second series, and with another first series
    name. *)
Definition pie_spec_two_series : ChartSpec.t :=
  ChartSpec.mk PIE "Other title" Null
    [SeriesSpec.mk "Renamed"
       [PRecord {[ "name" := JStr "A"; "y" := JNum 45%float ]}]
       Null Null 0%float;
     mixed_series]
    time_axis Null "" [] Null ∅.

(** An error on display is explained by the form: it reports a failed
    file read, or the failure of [JSON.parse] on the text now in the box,
    or what [onSubmit] threw when called with a request parsed from the
    text now in the box. *)
Definition error_explained `{JsRuntime} `{JsonInput.JsonInputProps}
    (st : JsonInput.State) : Prop :=
  match JsonInput.error st with
  | None => True
  | Some e =>
      e = "Failed to read file"
      ∨ ∃ message,
          e = "Invalid JSON: " ++ message
          ∧ (JSON_parse (JsonInput.jsonText st) = inr message
             ∨ ∃ req,
                 JSON_parse (JsonInput.jsonText st)
                 = inl (ChartRequest.data req)
                 ∧ JsonInput.onSubmit req = JsonInput.Thrown message)
  end.

(** The hints of a request carry content: [null], or an object with at
    least one key in which no key is [null] or the empty string. *)
Definition hints_carry_content (req : ChartRequest.t) : Prop :=
  match ChartRequest.hints req with
  | Absent => False
  | Null => True
  | Val h =>
      (0 < JsonInput.Object_keys_length h)%nat
      ∧ UserHints.preferred_chart_type h ≠ Null
      ∧ UserHints.x_field h ≠ Null ∧ UserHints.x_field h ≠ Val ""
      ∧ UserHints.y_field h ≠ Null ∧ UserHints.y_field h ≠ Val ""
  end.

(** The result of a fulfilled call. *)
Definition fulfilled (r : App.Response) : option ChartSpec.t :=
  match r with
  | App.Fulfilled result => Some result
  | App.Rejected _ => None
  end.

(** What a cell shows of a value that may be missing: a falsy value and
    no value both give the empty string. *)
Definition shown (v : option JsValue) : JsValue :=
  match v with
  | Some v => if ChartTable.js_truthy v then v else JStr ""
  | None => JStr ""
  end.


(** Two series with a pair at the same index and different x values. *)
Definition two_x_spec : ChartSpec.t :=
  ChartSpec.mk COLUMN "Counts" Null
    [short_series;
     SeriesSpec.mk "later" [PArray [SStr "b"; SNum 2%float]]
       Null Null 0%float]
    category_axis Null "" [] Null ∅.


(** A pie chart whose only point is a name/y record with a name that
    cannot be converted to a string. *)
Definition unconvertible_pie_spec : ChartSpec.t :=
  ChartSpec.mk PIE "Shares" Null
    [SeriesSpec.mk "Series 1"
       [PRecord {[ "name" := JObj {[ "toString" := JNum 1%float ]};
                   "y" := JNum 1%float ]}]
       Null Null 0%float]
    category_axis Null "" [] Null ∅.

(** A column chart with an empty series named like the x axis. *)
Definition title_named_series : SeriesSpec.t :=
  SeriesSpec.mk "Category" [] Null Null 0%float.

Definition title_named_spec : ChartSpec.t :=
  ChartSpec.mk COLUMN "Counts" Null [title_named_series; short_series]
    category_axis Null "" [] Null ∅.

(** The line chart with a [config] that replaces the computed [series]
    entry. *)
Definition line_spec_series_in_config : ChartSpec.t :=
  ChartSpec.mk LINE "Time Series Data" Null [series_1] time_axis
    (Val value_axis) "" [AREA; COLUMN] Null {[ "series" := JArr [] ]}.

(** * Properties of the converter *)

Section converter_lemmas.
Import chartConverter.
Implicit Types (spec : ChartSpec.t) (k : string) (v : JsValue)
  (a : AxisSpec.t).

(** A key of [spec.config] reaches the options with the value it has in
    [spec.config]. *)
Lemma lookup_options_config spec k v :
  ChartSpec.config spec !! k = Some v →
  chartSpecToHighcharts spec !! k = Some v.
Proof.
  intros Hk. unfold chartSpecToHighcharts, object_spread.
  by apply lookup_union_Some_l.
Qed.

(** Any other key keeps the value the converter computed. *)
Lemma lookup_options_computed spec k :
  ChartSpec.config spec !! k = None →
  chartSpecToHighcharts spec !! k = computed_options spec !! k.
Proof.
  intros Hk. unfold chartSpecToHighcharts, object_spread.
  by rewrite lookup_union_r.
Qed.

Lemma computed_xAxis spec :
  computed_options spec !! "xAxis" = Some (axis_entry (xAxis spec)).
Proof. reflexivity. Qed.

Lemma computed_yAxis spec :
  computed_options spec !! "yAxis" = Some (axis_entry (yAxis spec)).
Proof. reflexivity. Qed.

Lemma computed_series spec :
  computed_options spec !! "series" =
  Some (JArr (JObj <$> (convert_series (ChartSpec.chart_type spec)
                          <$> ChartSpec.series spec))).
Proof. reflexivity. Qed.

Lemma computed_chart spec :
  computed_options spec !! "chart" =
  Some (JObj {[ "type" := JStr (ChartType_value (ChartSpec.chart_type spec)) ]}).
Proof.
  unfold computed_options.
  by destruct (decide (ChartSpec.chart_type spec = PIE)) as [->|].
Qed.

Lemma computed_title spec :
  computed_options spec !! "title" =
  Some (JObj {[ "text" := JStr (ChartSpec.title spec) ]}).
Proof. reflexivity. Qed.

(** At run time the pie branch of the series callback changes nothing:
    it sets the type and the data the series configuration already has. *)
Lemma convert_series_seriesConfig (c : ChartType) (s : SeriesSpec.t) :
  convert_series c s = seriesConfig c s.
Proof.
  unfold convert_series. destruct (decide (c = PIE)) as [->|]; [|done].
  apply map_eq. intros k. unfold object_spread.
  rewrite (right_id_L ∅ (∪)).
  destruct (decide (k = "data")) as [->|Hd]; [done|].
  rewrite lookup_insert_ne by done.
  destruct (decide (k = "type")) as [->|Ht]; [done|].
  by rewrite lookup_insert_ne.
Qed.

(** The axes of a pie chart stay uninitialised. *)
Lemma xAxis_pie spec : ChartSpec.chart_type spec = PIE → xAxis spec = None.
Proof. unfold xAxis. intros ->. done. Qed.

Lemma yAxis_pie spec : ChartSpec.chart_type spec = PIE → yAxis spec = None.
Proof.
  unfold yAxis. intros ->. by destruct (ChartSpec.y_axis spec).
Qed.

(** The axes of any other chart. *)
Lemma xAxis_built spec :
  ChartSpec.chart_type spec ≠ PIE →
  xAxis spec =
  Some {[ "title" :=
            JObj {[ "text" := JStr (AxisSpec.title (ChartSpec.x_axis spec)) ]};
          "type" := JStr (xAxis_type (AxisSpec.type (ChartSpec.x_axis spec)));
          "min" := nullish_undefined (AxisSpec.min (ChartSpec.x_axis spec));
          "max" := nullish_undefined (AxisSpec.max (ChartSpec.x_axis spec)) ]}.
Proof. unfold xAxis. intros Ht. by destruct (decide _). Qed.

Lemma yAxis_built spec a :
  ChartSpec.chart_type spec ≠ PIE →
  ChartSpec.y_axis spec = Val a →
  yAxis spec =
  Some {[ "title" := JObj {[ "text" := JStr (yAxis_title_text a) ]};
          "type" := JStr (yAxis_type (AxisSpec.type a));
          "min" := nullish_undefined (AxisSpec.min a);
          "max" := nullish_undefined (AxisSpec.max a) ]}.
Proof. unfold yAxis. intros Ht ->. by destruct (decide _). Qed.

Lemma yAxis_no_axis spec :
  (∀ a, ChartSpec.y_axis spec ≠ Val a) → yAxis spec = None.
Proof.
  unfold yAxis. intros Ha.
  destruct (ChartSpec.y_axis spec) as [| |a]; [done|done|by destruct (Ha a)].
Qed.

(** A built axis is returned unless [config] names its key. *)
Lemma returned_xAxis spec o :
  xAxis spec = Some o →
  ChartSpec.config spec !! "xAxis" = None →
  chartSpecToHighcharts spec !! "xAxis" = Some (JArr [JObj o]).
Proof.
  intros Ho Hc. by rewrite (lookup_options_computed _ _ Hc), computed_xAxis, Ho.
Qed.

Lemma returned_yAxis spec o :
  yAxis spec = Some o →
  ChartSpec.config spec !! "yAxis" = None →
  chartSpecToHighcharts spec !! "yAxis" = Some (JArr [JObj o]).
Proof.
  intros Ho Hc. by rewrite (lookup_options_computed _ _ Hc), computed_yAxis, Ho.
Qed.

Lemma append_empty_r (s : string) : s ++ "" = s.
Proof.
  induction s as [|c s IH]; [done|]. exact (f_equal (String c) IH).
Qed.

Lemma truthy_decide (s : string) :
  truthy s = if decide (s = "") then false else true.
Proof.
  unfold truthy. destruct (decide (s = "")) as [->|Hs]; [done|].
  by rewrite (proj2 (String.eqb_neq _ _) Hs).
Qed.

Lemma xAxis_type_mapped t : x_type_mapped t (xAxis_type t).
Proof.
  unfold x_type_mapped, xAxis_type.
  repeat split; try (by intros ->).
  intros H1 H2 H3.
  by rewrite !(proj2 (String.eqb_neq _ _)).
Qed.

Lemma yAxis_type_cases t :
  yAxis_type t =
  if decide (t = "log") then "logarithmic"
  else if decide (t = "category") then "category" else "linear".
Proof.
  unfold yAxis_type.
  destruct (decide (t = "log")) as [->|H1]; [done|].
  rewrite (proj2 (String.eqb_neq _ _) H1).
  destruct (decide (t = "category")) as [->|H2]; [done|].
  by rewrite (proj2 (String.eqb_neq _ _) H2).
Qed.

Lemma nullish_undefined_passed b : bound_passed b (nullish_undefined b).
Proof. by destruct b. Qed.

Lemma yAxis_title_text_rendered a : y_title_rendered a (yAxis_title_text a).
Proof.
  unfold y_title_rendered, yAxis_title_text, truthy_text.
  destruct (AxisSpec.unit a) as [| |u]; try apply append_empty_r.
  rewrite truthy_decide.
  destruct (decide (u = "")); [apply append_empty_r|done].
Qed.

End converter_lemmas.

Create HintDb converter discriminated.
#[local] Hint Resolve xAxis_type_mapped nullish_undefined_passed
  yAxis_title_text_rendered returned_xAxis returned_yAxis : converter.

Section converter_properties.
Import chartConverter.
Implicit Types (spec : ChartSpec.t) (k : string) (v : JsValue)
  (a : AxisSpec.t).

(** C8. For every chart specification, a key present in its [config]
    map carries, in the returned options, exactly the value [config] gives
    it; this holds in particular for the keys the converter computes
    itself ([chart], [series], [xAxis], [yAxis], [title]), whose computed
    values are thereby replaced. *)
Theorem config_replaces_computed_option spec k v :
  ChartSpec.config spec !! k = Some v →
  chartSpecToHighcharts spec !! k = Some v
  ∧ (k ∈ ["chart"; "series"; "xAxis"; "yAxis"; "title"] →
     is_Some (computed_options spec !! k)).
Proof.
  intros Hk. split; [by apply lookup_options_config|].
  rewrite !elem_of_cons, elem_of_nil.
  intros [->|[->|[->|[->|[->|[]]]]]];
    [rewrite computed_chart|rewrite computed_series|rewrite computed_xAxis
    |rewrite computed_yAxis|rewrite computed_title]; by eexists.
Qed.

Lemma config_replaces_computed_option_witness :
  chartSpecToHighcharts line_spec_chart_in_config !! "chart"
  = Some (JObj {[ "type" := JStr "spline" ]})
  ∧ is_Some (computed_options line_spec_chart_in_config !! "chart").
Proof.
  destruct (config_replaces_computed_option line_spec_chart_in_config
              "chart" (JObj {[ "type" := JStr "spline" ]}) eq_refl)
    as [Hout Hcomputed].
  split; [exact Hout|]. apply Hcomputed. by left.
Defined.

(** C3, as stated, fails: a pie chart whose [config] carries an [xAxis]
    key is returned with that [xAxis], not with an undefined one. *)
Lemma pie_axis_from_config :
  ChartSpec.chart_type pie_spec_axis_in_config = PIE
  ∧ js_get (chartSpecToHighcharts pie_spec_axis_in_config) "xAxis"
    = JObj {[ "visible" := JBool true ]}
  ∧ js_get (chartSpecToHighcharts pie_spec_axis_in_config) "xAxis"
    ≠ JUndefined.
Proof. split; [reflexivity|]. split; [reflexivity|discriminate]. Qed.

(** C3, amended. When [config] has no [xAxis] key, the returned [xAxis]
    is undefined for a pie chart and an axis entry for every other chart
    type; when [config] has no [yAxis] key, the returned [yAxis] is
    undefined for a pie chart and, for every other chart type, an axis
    entry exactly when [spec.y_axis] is an axis (neither null nor
    missing). *)
Theorem axes_absent_for_pie_only spec :
  (ChartSpec.config spec !! "xAxis" = None →
     (ChartSpec.chart_type spec = PIE →
        js_get (chartSpecToHighcharts spec) "xAxis" = JUndefined)
     ∧ (ChartSpec.chart_type spec ≠ PIE →
        ∃ o, js_get (chartSpecToHighcharts spec) "xAxis" = JArr [JObj o]))
  ∧ (ChartSpec.config spec !! "yAxis" = None →
     (ChartSpec.chart_type spec = PIE →
        js_get (chartSpecToHighcharts spec) "yAxis" = JUndefined)
     ∧ (ChartSpec.chart_type spec ≠ PIE →
        (js_get (chartSpecToHighcharts spec) "yAxis" ≠ JUndefined
         ↔ ∃ a, ChartSpec.y_axis spec = Val a)
        ∧ ((∃ a, ChartSpec.y_axis spec = Val a) →
           ∃ o, js_get (chartSpecToHighcharts spec) "yAxis" = JArr [JObj o]))).
Proof.
  unfold js_get. split; intros Hc; rewrite (lookup_options_computed _ _ Hc).
  - rewrite computed_xAxis. split; intros Ht.
    + by rewrite xAxis_pie.
    + rewrite xAxis_built by done. by eexists.
  - rewrite computed_yAxis. split; intros Ht.
    + by rewrite yAxis_pie.
    + destruct (ChartSpec.y_axis spec) as [| |a] eqn:Ha.
      * rewrite yAxis_no_axis by (by rewrite Ha).
        split; [split; [done|by intros [? ?]]|by intros [? ?]].
      * rewrite yAxis_no_axis by (by rewrite Ha).
        split; [split; [done|by intros [? ?]]|by intros [? ?]].
      * rewrite (yAxis_built _ a) by done.
        split; [split; [by eexists|done]|by eexists].
Qed.

Lemma axes_absent_for_pie_only_witness :
  js_get (chartSpecToHighcharts pie_spec) "xAxis" = JUndefined
  ∧ js_get (chartSpecToHighcharts pie_spec) "yAxis" = JUndefined
  ∧ js_get (chartSpecToHighcharts line_spec) "yAxis" ≠ JUndefined.
Proof.
  destruct (axes_absent_for_pie_only pie_spec) as [Hx Hy].
  destruct (axes_absent_for_pie_only line_spec) as [_ Hline].
  split; [|split].
  - apply Hx; reflexivity.
  - apply Hy; reflexivity.
  - apply Hline; [reflexivity|discriminate|by eexists].
Defined.

(** C4. For every chart that is not a pie chart, the x axis the converter
    builds has the Highcharts type of its semantic type ([datetime] to
    [datetime], [log] to [logarithmic], [category] to [category], anything
    else, [linear] included, to [linear]) and the bounds of [spec.x_axis],
    [null] turned into [undefined]; the y axis it builds for a
    [spec.y_axis] has the same bounds rule and the title followed by the
    unit in parentheses when the unit is a non-empty string, the bare
    title otherwise. These axes are the ones returned unless [config]
    names the key. *)
Theorem axis_options_follow_AxisSpec spec :
  ChartSpec.chart_type spec ≠ PIE →
  (∃ ox ty lo hi,
      xAxis spec = Some ox
      ∧ ox !! "type" = Some (JStr ty)
      ∧ x_type_mapped (AxisSpec.type (ChartSpec.x_axis spec)) ty
      ∧ ox !! "min" = Some lo
      ∧ bound_passed (AxisSpec.min (ChartSpec.x_axis spec)) lo
      ∧ ox !! "max" = Some hi
      ∧ bound_passed (AxisSpec.max (ChartSpec.x_axis spec)) hi
      ∧ (ChartSpec.config spec !! "xAxis" = None →
         chartSpecToHighcharts spec !! "xAxis" = Some (JArr [JObj ox])))
  ∧ (∀ a, ChartSpec.y_axis spec = Val a →
      ∃ oy text lo hi,
        yAxis spec = Some oy
        ∧ oy !! "title" = Some (JObj {[ "text" := JStr text ]})
        ∧ y_title_rendered a text
        ∧ oy !! "min" = Some lo ∧ bound_passed (AxisSpec.min a) lo
        ∧ oy !! "max" = Some hi ∧ bound_passed (AxisSpec.max a) hi
        ∧ (ChartSpec.config spec !! "yAxis" = None →
           chartSpecToHighcharts spec !! "yAxis" = Some (JArr [JObj oy]))).
Proof.
  intros Ht. split.
  - pose proof (xAxis_built spec Ht) as Hx.
    eexists _, _, _, _. split; [exact Hx|].
    repeat (split; [reflexivity || eauto with converter|]).
    eauto with converter.
  - intros a Ha. pose proof (yAxis_built spec a Ht Ha) as Hy.
    eexists _, _, _, _. split; [exact Hy|].
    repeat (split; [reflexivity || eauto with converter|]).
    eauto with converter.
Qed.

Lemma axis_options_follow_AxisSpec_witness :
  ∃ oy,
    chartSpecToHighcharts line_spec !! "yAxis" = Some (JArr [JObj oy])
    ∧ oy !! "title" = Some (JObj {[ "text" := JStr "Value (kg)" ]}).
Proof.
  destruct (axis_options_follow_AxisSpec line_spec) as [_ Hy]; [done|].
  destruct (Hy value_axis eq_refl)
    as (oy & text & lo & hi & _ & Htitle & Htext & _ & _ & _ & _ & Hout).
  exists oy. split; [by apply Hout|].
  by rewrite Htitle, Htext.
Defined.

(** C9. The two axes map the semantic type differently: for every chart
    that is not a pie chart, a y axis of semantic type [datetime] is built
    with the Highcharts type [linear] (the y-axis chain tells apart only
    [log] and [category]), while an x axis of semantic type [datetime] is
    built with the type [datetime]. These axes are the ones returned
    unless [config] names the key. *)
Theorem datetime_mapped_on_x_axis_only spec :
  ChartSpec.chart_type spec ≠ PIE →
  (∀ a, ChartSpec.y_axis spec = Val a →
     ∃ oy,
       yAxis spec = Some oy
       ∧ oy !! "type" =
           Some (JStr (if decide (AxisSpec.type a = "log") then "logarithmic"
                       else if decide (AxisSpec.type a = "category")
                            then "category" else "linear"))
       ∧ (AxisSpec.type a = "datetime" →
          oy !! "type" = Some (JStr "linear"))
       ∧ (ChartSpec.config spec !! "yAxis" = None →
          chartSpecToHighcharts spec !! "yAxis" = Some (JArr [JObj oy])))
  ∧ (∃ ox,
       xAxis spec = Some ox
       ∧ (AxisSpec.type (ChartSpec.x_axis spec) = "datetime" →
          ox !! "type" = Some (JStr "datetime"))
       ∧ (ChartSpec.config spec !! "xAxis" = None →
          chartSpecToHighcharts spec !! "xAxis" = Some (JArr [JObj ox]))).
Proof.
  intros Ht. split.
  - intros a Ha. pose proof (yAxis_built spec a Ht Ha) as Hy.
    eexists. split; [exact Hy|].
    split; [by rewrite <- yAxis_type_cases|].
    split; [|eauto with converter].
    intros Hd. change (Some (JStr (yAxis_type (AxisSpec.type a)))
                       = Some (JStr "linear")). by rewrite Hd.
  - pose proof (xAxis_built spec Ht) as Hx.
    eexists. split; [exact Hx|].
    split; [|eauto with converter].
    intros Hd. change (Some (JStr (xAxis_type
                         (AxisSpec.type (ChartSpec.x_axis spec))))
                       = Some (JStr "datetime")). by rewrite Hd.
Qed.

Lemma datetime_mapped_on_x_axis_only_witness :
  (∃ oy, chartSpecToHighcharts datetime_spec !! "yAxis"
         = Some (JArr [JObj oy])
         ∧ oy !! "type" = Some (JStr "linear"))
  ∧ (∃ ox, chartSpecToHighcharts datetime_spec !! "xAxis"
           = Some (JArr [JObj ox])
           ∧ ox !! "type" = Some (JStr "datetime")).
Proof.
  destruct (datetime_mapped_on_x_axis_only datetime_spec) as [Hy Hx];
    [done|].
  destruct (Hy duration_axis eq_refl) as (oy & _ & _ & Hlin & Hout).
  destruct Hx as (ox & _ & Hdt & Hxout).
  split.
  - exists oy. split; [by apply Hout | by apply Hlin].
  - exists ox. split; [by apply Hxout | by apply Hdt].
Defined.
End converter_properties.

(** * The consumer's schema and the output contract *)

Section schema_lemmas.
Import Schema.
Implicit Types (o : gmap string JsValue) (k : string).

Lemma lookup_put_optional o k k' v :
  is_Some (put_optional k' v o !! k) → k = k' ∨ is_Some (o !! k).
Proof.
  destruct v as [v|]; simpl; [|by right].
  destruct (decide (k = k')) as [->|Hk]; [by left|].
  rewrite lookup_insert_ne by done. by right.
Qed.

Lemma put_optional_keeps o k k' v :
  is_Some (o !! k) → is_Some (put_optional k' v o !! k).
Proof.
  intros Hk. destruct v as [v|]; simpl; [|done].
  destruct (decide (k' = k)) as [->|Hne].
  - rewrite lookup_insert_eq. by eexists.
  - by rewrite lookup_insert_ne.
Qed.

(** The keys of a literal object are the keys written in it. *)
Ltac literal_keys :=
  repeat match goal with
  | H : is_Some (put_optional _ _ _ !! _) |- _ =>
      apply lookup_put_optional in H as [->|H]
  | H : is_Some (<[_ := _]> _ !! ?k) |- _ =>
      apply lookup_insert_is_Some in H as [<-|[_ H]]
  | H : is_Some (∅ !! _) |- _ => by apply is_Some_None in H
  | H : is_Some ({[ _ := _ ]} !! _) |- _ =>
      apply lookup_singleton_is_Some in H as <-
  end.

Lemma AxisSpec_instance (a : AxisSpec.t) :
  instance_of AxisSpec_interface (AxisSpec_to_js a).
Proof.
  split.
  - intros k Hk. unfold AxisSpec_to_js in Hk. literal_keys;
      set_solver.
  - unfold AxisSpec_to_js.
    repeat constructor; intros; simpl in *; try done;
      repeat apply put_optional_keeps; by eexists.
Qed.

Lemma SeriesSpec_instance (s : SeriesSpec.t) :
  instance_of SeriesSpec_interface (SeriesSpec_to_js s).
Proof.
  split.
  - intros k Hk. unfold SeriesSpec_to_js in Hk. literal_keys;
      set_solver.
  - unfold SeriesSpec_to_js.
    repeat constructor; intros; simpl in *; try done;
      repeat apply put_optional_keeps; by eexists.
Qed.

Lemma ChartSpec_instance (c : ChartSpec.t) :
  instance_of ChartSpec_interface (ChartSpec_to_js c).
Proof.
  split.
  - intros k Hk. unfold ChartSpec_to_js in Hk. literal_keys;
      set_solver.
  - unfold ChartSpec_to_js.
    repeat constructor; intros; simpl in *; try done;
      repeat apply put_optional_keeps; by eexists.
Qed.
End schema_lemmas.

(** C1. The interfaces [ChartSpec], [SeriesSpec] and [AxisSpec] declare,
    property for property and in this order, exactly the attributes of the
    output contract: the same names, optional where the contract says
    optional and required elsewhere, a chart-type value for [chart_type],
    sequences for [series] and [alternative_types], axis specs for [x_axis]
    and [y_axis], a string for [rationale], a number for the axis index of
    a series, and a map for [config]. Every chart specification the
    components compute with is an object with these keys: none beyond the
    declared ones, and all the required ones. *)
Theorem ChartSpec_declares_contract :
  Forall2 Schema.declares Schema.ChartSpec_interface
          Schema.ChartDescription_contract
  ∧ Forall2 Schema.declares Schema.SeriesSpec_interface
            Schema.series_contract
  ∧ Forall2 Schema.declares Schema.AxisSpec_interface
            Schema.AxisSpec_contract
  ∧ ∀ c : ChartSpec.t,
      Schema.instance_of Schema.ChartSpec_interface (Schema.ChartSpec_to_js c)
      ∧ Forall (λ s, Schema.instance_of Schema.SeriesSpec_interface
                       (Schema.SeriesSpec_to_js s)) (ChartSpec.series c)
      ∧ Schema.instance_of Schema.AxisSpec_interface
          (Schema.AxisSpec_to_js (ChartSpec.x_axis c))
      ∧ ∀ a, ChartSpec.y_axis c = Val a →
             Schema.instance_of Schema.AxisSpec_interface
               (Schema.AxisSpec_to_js a).
Proof.
  split; [repeat constructor|].
  split; [repeat constructor|].
  split; [repeat constructor|].
  intros c. split; [apply ChartSpec_instance|].
  split; [apply Forall_forall; intros s _; apply SeriesSpec_instance|].
  split; [apply AxisSpec_instance|].
  intros a _. apply AxisSpec_instance.
Qed.

Lemma ChartSpec_declares_contract_witness :
  Schema.instance_of Schema.ChartSpec_interface
    (Schema.ChartSpec_to_js line_spec)
  ∧ Schema.instance_of Schema.AxisSpec_interface
      (Schema.AxisSpec_to_js value_axis).
Proof.
  destruct ChartSpec_declares_contract as (_ & _ & _ & Hinstance).
  destruct (Hinstance line_spec) as (Hchart & _ & _ & Hy).
  split; [exact Hchart|]. apply Hy. reflexivity.
Defined.

(** * Properties of the tabular fallback *)

Section table_lemmas.
Import ChartDisplay.
Context `{JsRuntime}.
Implicit Types (spec : ChartSpec.t) (s : SeriesSpec.t) (p : DataPoint)
  (row : gmap string JsValue) (k : string).

Lemma loop_count_foldl_max (xs : list nat) (acc : MaxResult) :
  loop_count
    (foldl (λ acc x, match acc with
                     | NegInfinity => Finite x
                     | Finite m => Finite (Nat.max m x)
                     end) acc xs)
  = Nat.max (loop_count acc) (max_list xs).
Proof.
  revert acc. induction xs as [|x xs IH]; intros acc; simpl.
  - lia.
  - rewrite IH. destruct acc; simpl; lia.
Qed.

(** The loop bound is the length of the longest series, and zero when
    there is no series. *)
Lemma loop_count_Math_max (xs : list nat) :
  loop_count (Math_max xs) = max_list xs.
Proof. unfold Math_max. by rewrite loop_count_foldl_max. Qed.

Lemma pie_record_Some p :
  is_Some (pie_record p) ↔ is_name_y_record p = true.
Proof.
  destruct p as [r| |]; simpl.
  - destruct (js_in "name" r && js_in "y" r); split; try done;
      by intros [? ?].
  - split; [by intros [? ?]|done].
  - split; [by intros [? ?]|done].
Qed.

Lemma pie_record_None p : pie_record p = None ↔ is_name_y_record p = false.
Proof.
  rewrite eq_None_not_Some, pie_record_Some.
  by destruct (is_name_y_record p).
Qed.

(** The callback throws on a name/y record that cannot be converted, and
    returns the converted record, or [null], on any other point. *)
Lemma pie_row_cases p :
  pie_row p
  = if conversion_fails p then ThrowsTypeError else Returns (pie_record p).
Proof.
  destruct p as [r| |]; try done. simpl.
  destruct (js_in "name" r && js_in "y" r); [|done]. simpl.
  unfold String_of, Number_of.
  destruct (ToPrimitive_throws (js_get r "name")); [done|]. simpl.
  by destruct (ToPrimitive_throws (js_get r "y")).
Qed.

(** [map] throws when the callback throws on some item, and returns the
    results of all calls otherwise. *)
Lemma mapM_pie_row (ps : list DataPoint) :
  mapM pie_row ps
  = if existsb conversion_fails ps then ThrowsTypeError
    else Returns (pie_record <$> ps).
Proof.
  induction ps as [|p ps IH]; [done|].
  cbn [mapM existsb]. rewrite pie_row_cases.
  destruct (conversion_fails p); [done|]. cbn.
  change ((fix go (l : list DataPoint) := _) ps) with (mapM pie_row ps).
  rewrite IH. by destruct (existsb conversion_fails ps).
Qed.

(** [filter(Boolean)] keeps exactly the points that are name/y records,
    in their order. *)
Lemma length_pie_rows (ps : list DataPoint) :
  length (omap pie_record ps)
  = length (filter (λ p, is_name_y_record p = true) ps).
Proof.
  induction ps as [|p ps IH]; [done|].
  rewrite filter_cons. cbn [omap list_omap].
  destruct (decide (is_name_y_record p = true)) as [Hp|Hp].
  - apply pie_record_Some in Hp as [r ->]. cbn. by rewrite IH.
  - apply not_true_is_false, pie_record_None in Hp. rewrite Hp. apply IH.
Qed.

Lemma existsb_conversion_fails (ps : list DataPoint) :
  existsb conversion_fails ps = true
  ↔ ∃ p, p ∈ ps ∧ conversion_fails p = true.
Proof.
  rewrite existsb_exists. split; intros (p & Hp & Hf); exists p.
  - split; [by apply list_elem_of_In|done].
  - split; [by apply list_elem_of_In|done].
Qed.

Lemma filter_Boolean_fmap {A B : Type} (f : A → option B) (xs : list A) :
  filter_Boolean (f <$> xs) = omap f xs.
Proof.
  unfold filter_Boolean. induction xs as [|x xs IH]; [done|].
  rewrite fmap_cons. cbn. rewrite IH. by destruct (f x).
Qed.

Lemma fill_cell_pair spec i row s x y rest :
  SeriesSpec.data s !! i = Some (PArray (x :: y :: rest)) →
  fill_cell spec i row s
  = assign_primitive (SeriesSpec.name s) y
      (assign_primitive (AxisSpec.title (ChartSpec.x_axis spec)) x row).
Proof. unfold fill_cell. by intros ->. Qed.

Lemma fill_cell_number spec i row s n :
  SeriesSpec.data s !! i = Some (PNumber n) →
  fill_cell spec i row s
  = assign_primitive (SeriesSpec.name s) (SNum n) row.
Proof. unfold fill_cell. by intros ->. Qed.

(** A series with no point at the index, or with a point there that is
    neither a pair nor a number, leaves the row as it is. *)
Lemma fill_cell_skip spec i row s :
  (∀ p, SeriesSpec.data s !! i = Some p →
        is_xy_pair p = false ∧ is_bare_number p = false) →
  fill_cell spec i row s = row.
Proof.
  unfold fill_cell. intros Hp.
  destruct (SeriesSpec.data s !! i) as [p|]; [|done].
  destruct (Hp p eq_refl) as [Hxy Hn].
  destruct p as [r|[|x [|y rest]]|n]; done.
Qed.

Lemma lookup_assign_primitive_ne k k' v row :
  k ≠ k' → assign_primitive k' v row !! k = row !! k.
Proof.
  intros Hk. unfold assign_primitive.
  destruct (String.eqb k' "__proto__"); [done|].
  by rewrite lookup_insert_ne.
Qed.

Lemma fill_cell_lookup_other spec i row s k :
  k ≠ AxisSpec.title (ChartSpec.x_axis spec) →
  (k = SeriesSpec.name s →
   ∀ p, SeriesSpec.data s !! i = Some p →
        is_xy_pair p = false ∧ is_bare_number p = false) →
  fill_cell spec i row s !! k = row !! k.
Proof.
  intros Hx Hs.
  destruct (decide (k = SeriesSpec.name s)) as [Hk|Hk].
  - by rewrite fill_cell_skip by auto.
  - unfold fill_cell.
    destruct (SeriesSpec.data s !! i) as [[r|[|x [|y rest]]|n]|];
      try done; by rewrite !lookup_assign_primitive_ne.
Qed.

(** The cell of key [k] is missing from row [i] when no series named
    [k] has a pair or a number at index [i] (and [k] is not the x-axis
    title, which every pair writes). *)
Lemma build_row_cell_omitted spec i k :
  k ≠ AxisSpec.title (ChartSpec.x_axis spec) →
  (∀ s, s ∈ ChartSpec.series spec → k = SeriesSpec.name s →
     ∀ p, SeriesSpec.data s !! i = Some p →
          is_xy_pair p = false ∧ is_bare_number p = false) →
  build_row spec i !! k = None.
Proof.
  intros Hx. unfold build_row.
  assert (Hgen : ∀ (ss : list SeriesSpec.t) row,
    (∀ s, s ∈ ss → k = SeriesSpec.name s →
       ∀ p, SeriesSpec.data s !! i = Some p →
            is_xy_pair p = false ∧ is_bare_number p = false) →
    foldl (fill_cell spec i) row ss !! k = row !! k).
  { induction ss as [|s ss IH]; intros row Hss; [done|]. simpl.
    rewrite IH.
    - apply fill_cell_lookup_other; [done|].
      apply Hss. by left.
    - intros s' Hs'. apply Hss. by right. }
  intros Hss. by rewrite Hgen.
Qed.

Lemma tableData_pie spec :
  ChartSpec.chart_type spec = PIE →
  tableData spec =
  match ChartSpec.series spec !! 0 with
  | Some s =>
      if existsb conversion_fails (SeriesSpec.data s) then ThrowsTypeError
      else Returns (PieRows (omap pie_record (SeriesSpec.data s)))
  | None => Returns (PieRows [])
  end.
Proof.
  unfold tableData. intros ->. simpl.
  destruct (ChartSpec.series spec !! 0) as [s|]; [|done].
  rewrite mapM_pie_row.
  destruct (existsb conversion_fails (SeriesSpec.data s)); [done|].
  simpl. by rewrite filter_Boolean_fmap.
Qed.

Lemma tableData_series spec :
  ChartSpec.chart_type spec ≠ PIE →
  tableData spec =
  Returns
    (SeriesRows
       (build_row spec <$>
          seq 0 (max_list ((λ s, length (SeriesSpec.data s))
                             <$> ChartSpec.series spec)))).
Proof.
  unfold tableData. intros Ht.
  destruct (decide _); [done|]. by rewrite loop_count_Math_max.
Qed.

Lemma lookup_assign_primitive_eq k (x : Scalar) row :
  k ≠ "__proto__" → assign_primitive k x row !! k = Some (Scalar_to_js x).
Proof.
  intros Hk. unfold assign_primitive.
  rewrite (proj2 (String.eqb_neq _ _) Hk). apply lookup_insert_eq.
Qed.

Lemma lookup_assign_primitive_Some k k' (x : Scalar) row v :
  assign_primitive k' x row !! k = Some v →
  (k = k' ∧ k ≠ "__proto__" ∧ v = Scalar_to_js x) ∨ row !! k = Some v.
Proof.
  unfold assign_primitive.
  destruct (String.eqb k' "__proto__") eqn:Hp; [by right|].
  apply String.eqb_neq in Hp.
  destruct (decide (k' = k)) as [->|Hne].
  - rewrite lookup_insert_eq. intros [= <-]. by left.
  - rewrite lookup_insert_ne by done. by right.
Qed.

(** A series leaves a key alone unless it writes it: the x-axis title
    with a pair, its own name with a pair or a number. *)
Lemma fill_cell_untouched spec i row s k :
  (k = AxisSpec.title (ChartSpec.x_axis spec) →
   x_of (SeriesSpec.data s !! i) = None) →
  (k = SeriesSpec.name s → cell_of (SeriesSpec.data s !! i) = None) →
  fill_cell spec i row s !! k = row !! k.
Proof.
  intros Hx Hn. unfold fill_cell.
  destruct (SeriesSpec.data s !! i) as [[r|[|x [|y rest]]|n]|]; try done.
  - simpl in *.
    by rewrite !lookup_assign_primitive_ne
      by (intros ->; first [by specialize (Hx eq_refl)
                           |by specialize (Hn eq_refl)]).
  - simpl in *.
    by rewrite lookup_assign_primitive_ne
      by (intros ->; by specialize (Hn eq_refl)).
Qed.

Lemma foldl_fill_cell_untouched spec i (ss : list SeriesSpec.t) row k :
  (∀ s, s ∈ ss →
     (k = AxisSpec.title (ChartSpec.x_axis spec) →
      x_of (SeriesSpec.data s !! i) = None)
     ∧ (k = SeriesSpec.name s → cell_of (SeriesSpec.data s !! i) = None)) →
  foldl (fill_cell spec i) row ss !! k = row !! k.
Proof.
  revert row. induction ss as [|s ss IH]; intros row Hss; [done|].
  simpl. rewrite IH.
  - apply fill_cell_untouched; apply Hss; by left.
  - intros s' Hs'. apply Hss. by right.
Qed.

(** What a series writes under its own name. *)
Lemma fill_cell_own spec i row s :
  SeriesSpec.name s ≠ "__proto__" →
  is_Some (cell_of (SeriesSpec.data s !! i)) →
  fill_cell spec i row s !! SeriesSpec.name s
  = cell_of (SeriesSpec.data s !! i).
Proof.
  intros Hp Hc. unfold fill_cell.
  destruct (SeriesSpec.data s !! i) as [[r|[|x [|y rest]]|n]|];
    try (by destruct Hc); simpl;
    by rewrite lookup_assign_primitive_eq.
Qed.

(** What a series with a pair writes under the x-axis title. *)
Lemma fill_cell_title spec i row s :
  AxisSpec.title (ChartSpec.x_axis spec) ≠ "__proto__" →
  SeriesSpec.name s ≠ AxisSpec.title (ChartSpec.x_axis spec) →
  is_Some (x_of (SeriesSpec.data s !! i)) →
  fill_cell spec i row s !! AxisSpec.title (ChartSpec.x_axis spec)
  = x_of (SeriesSpec.data s !! i).
Proof.
  intros Hp Hn Hx. unfold fill_cell.
  destruct (SeriesSpec.data s !! i) as [[r|[|x [|y rest]]|n]|];
    try (by destruct Hx); simpl.
  rewrite lookup_assign_primitive_ne by done.
  by rewrite lookup_assign_primitive_eq.
Qed.

Lemma fill_cell_keys spec i row s k v :
  fill_cell spec i row s !! k = Some v →
  ((k = AxisSpec.title (ChartSpec.x_axis spec) ∨ k = SeriesSpec.name s)
   ∧ k ≠ "__proto__" ∧ ∃ x : Scalar, v = Scalar_to_js x)
  ∨ row !! k = Some v.
Proof.
  unfold fill_cell.
  destruct (SeriesSpec.data s !! i) as [[r|[|x [|y rest]]|n]|];
    try (by right).
  - intros [(-> & ? & ->)|[(-> & ? & ->)|?]%lookup_assign_primitive_Some]
      %lookup_assign_primitive_Some; eauto 10.
  - intros [(-> & ? & ->)|?]%lookup_assign_primitive_Some; eauto 10.
Qed.

Lemma foldl_fill_cell_keys spec i (ss : list SeriesSpec.t) row k v :
  foldl (fill_cell spec i) row ss !! k = Some v →
  ((k = AxisSpec.title (ChartSpec.x_axis spec)
    ∨ k ∈ SeriesSpec.name <$> ss)
   ∧ k ≠ "__proto__" ∧ ∃ x : Scalar, v = Scalar_to_js x)
  ∨ row !! k = Some v.
Proof.
  revert row. induction ss as [|s ss IH]; intros row Hk; [by right|].
  simpl in Hk. apply IH in Hk as [([Hk|Hk] & ? & ?)|Hk].
  - left. eauto.
  - left. split; [|done]. right. rewrite fmap_cons. by right.
  - apply fill_cell_keys in Hk as [([Hk|Hk] & ? & ?)|Hk].
    + left. eauto.
    + left. split; [|done]. right. rewrite fmap_cons, Hk. by left.
    + by right.
Qed.

(** The cell of a series whose name no other series around it bears. *)
Lemma build_row_cell_split spec i (pre post : list SeriesSpec.t) s :
  ChartSpec.series spec = (pre ++ s :: post)%list →
  (∀ s', s' ∈ (pre ++ post)%list → SeriesSpec.name s' ≠ SeriesSpec.name s) →
  SeriesSpec.name s ≠ AxisSpec.title (ChartSpec.x_axis spec) →
  SeriesSpec.name s ≠ "__proto__" →
  build_row spec i !! SeriesSpec.name s = cell_of (SeriesSpec.data s !! i).
Proof.
  intros Hsplit Hnames Ht Hp. unfold build_row.
  rewrite Hsplit, foldl_app. simpl.
  rewrite foldl_fill_cell_untouched.
  2:{ intros s' Hs'. split; [done|]. intros Heq.
      destruct (Hnames s'); [apply elem_of_app; by right|done]. }
  destruct (cell_of (SeriesSpec.data s !! i)) as [c|] eqn:Hc.
  - rewrite <- Hc. apply fill_cell_own; [done|]. rewrite Hc. by eexists.
  - rewrite fill_cell_untouched by done.
    rewrite foldl_fill_cell_untouched; [done|].
    intros s' Hs'. split; [done|]. intros Heq.
    destruct (Hnames s'); [apply elem_of_app; by left|done].
Qed.

(** With distinct names, no other series bears the name of a series. *)
Lemma NoDup_names_split (ss pre post : list SeriesSpec.t) s :
  NoDup (SeriesSpec.name <$> ss) →
  ss = (pre ++ s :: post)%list →
  ∀ s', s' ∈ (pre ++ post)%list → SeriesSpec.name s' ≠ SeriesSpec.name s.
Proof.
  intros Hnd -> s' Hs'. rewrite fmap_app, fmap_cons in Hnd.
  apply NoDup_app in Hnd as (_ & Hpre & Hpost).
  apply NoDup_cons in Hpost as [Hpost _].
  apply elem_of_app in Hs' as [Hs'|Hs']; intros Heq.
  - destruct (Hpre (SeriesSpec.name s)).
    + rewrite <- Heq. by apply list_elem_of_fmap_2.
    + by left.
  - destruct Hpost. rewrite <- Heq. by apply list_elem_of_fmap_2.
Qed.

End table_lemmas.

(** * Properties of the tabular fallback: the claims *)

Section table_properties.
Import ChartDisplay chartConverter.
Context `{JsRuntime}.
Implicit Types (spec : ChartSpec.t) (s : SeriesSpec.t) (p : DataPoint)
  (row : gmap string JsValue) (k : string).

(** C2, as stated, fails: in a column chart the table takes the bare
    number [5] of the first series as the cell of that series, although it
    is no coordinate pair. *)
Lemma bare_number_fills_cell :
  ChartSpec.chart_type column_spec = COLUMN
  ∧ ChartSpec.series column_spec !! 0%nat = Some mixed_series
  ∧ SeriesSpec.data mixed_series !! 0%nat = Some (PNumber 5%float)
  ∧ is_xy_pair (PNumber 5%float) = false
  ∧ tableData (H := example_runtime) column_spec
    = Returns
        (SeriesRows
           [ {[ "count" := JNum 5%float; "Category" := JStr "a";
                "other" := JNum 1%float ]};
             {[ "Category" := JStr "b"; "count" := JNum 7%float ]};
             ∅ ]).
Proof. repeat split. Qed.

(** C2, amended. When [config] does not name [series], the options the
    converter returns hold one series for each series of the
    specification, in order, with the data of that series unchanged and
    the chart type as its type, for a pie chart as for any other; a
    [series] key of [config] replaces them. The table reads the points of
    the first series of a pie chart as name/y records, converting the
    name with [String] and the y value with [Number], which throw on a
    value that cannot be converted, and drops the other points; for every
    other chart type it reads a point as an x/y pair (an array of at
    least two entries, whose first two it takes), or as a bare number
    (taken as the y value), and skips any other point. *)
Theorem data_point_shapes spec :
  (ChartSpec.config spec !! "series" = None →
   ∃ l,
     chartSpecToHighcharts spec !! "series" = Some (JArr (JObj <$> l))
     ∧ length l = length (ChartSpec.series spec)
     ∧ ∀ i s, ChartSpec.series spec !! i = Some s →
         ∃ o, l !! i = Some o
              ∧ o !! "data"
                = Some (JArr (DataPoint_to_js <$> SeriesSpec.data s))
              ∧ o !! "type"
                = Some (JStr (ChartType_value (ChartSpec.chart_type spec)))
              ∧ o = seriesConfig (ChartSpec.chart_type spec) s)
  ∧ (∀ v, ChartSpec.config spec !! "series" = Some v →
          chartSpecToHighcharts spec !! "series" = Some v)
  ∧ (ChartSpec.chart_type spec = PIE →
     tableData spec
     = match ChartSpec.series spec !! 0%nat with
       | Some s =>
           if existsb conversion_fails (SeriesSpec.data s)
           then ThrowsTypeError
           else Returns (PieRows (omap pie_record (SeriesSpec.data s)))
       | None => Returns (PieRows [])
       end
     ∧ ∀ p, match pie_row p with
            | Returns (Some r) =>
                ∃ o, p = PRecord o
                     ∧ is_name_y_record p = true
                     ∧ name r = js_String (js_get o "name")
                     ∧ value r = js_Number (js_get o "y")
            | Returns None => is_name_y_record p = false
            | ThrowsTypeError =>
                ∃ o, p = PRecord o
                     ∧ is_name_y_record p = true
                     ∧ (ToPrimitive_throws (js_get o "name")
                        || ToPrimitive_throws (js_get o "y")) = true
            end)
  ∧ (ChartSpec.chart_type spec ≠ PIE →
     tableData spec =
     Returns
       (SeriesRows
          (build_row spec <$>
             seq 0 (max_list ((λ s, length (SeriesSpec.data s))
                                <$> ChartSpec.series spec))))
     ∧ ∀ i row s p,
         SeriesSpec.data s !! i = Some p →
         match p with
         | PArray (x :: y :: _) =>
             fill_cell spec i row s
             = assign_primitive (SeriesSpec.name s) y
                 (assign_primitive
                    (AxisSpec.title (ChartSpec.x_axis spec)) x row)
         | PNumber n =>
             fill_cell spec i row s
             = assign_primitive (SeriesSpec.name s) (SNum n) row
         | _ => fill_cell spec i row s = row
         end).
Proof.
  split; [|split; [|split]].
  - intros Hc. eexists. split.
    { by rewrite (lookup_options_computed _ _ Hc), computed_series. }
    split; [by rewrite length_fmap|].
    intros i s Hs. eexists. split.
    { by rewrite list_lookup_fmap, Hs. }
    by rewrite convert_series_seriesConfig.
  - intros v Hv. by apply lookup_options_config.
  - intros Ht. split; [by apply tableData_pie|].
    intros p. rewrite pie_row_cases.
    destruct p as [o| |]; try done. simpl.
    destruct (js_in "name" o && js_in "y" o) eqn:Ho; [|done]. simpl.
    destruct (ToPrimitive_throws (js_get o "name")
              || ToPrimitive_throws (js_get o "y")) eqn:Hthrows.
    + exists o. by simpl.
    + exists o. by simpl.
  - intros Ht. split; [by apply tableData_series|].
    intros i row s p Hp. unfold fill_cell. rewrite Hp.
    by destruct p as [r|[|x [|y rest]]|n].
Qed.

(** C10, amended. For a chart that is not a pie chart the table is
    always computed: it has one row per index below the length of the
    longest series (none when there is no series), row [i] being filled by
    each series in turn. When the names of the series are distinct, a
    series named neither like the x axis nor [__proto__] has in row [i]
    the y value of its pair or number at [i], and no cell when it has no
    point there or a point that is neither an array of at least two
    entries nor a number; in general a series without such a point leaves
    the row unchanged, so the cell under its name is missing unless
    another series of that name, or a pair when it is named like the x
    axis, writes it. For a pie chart, points of the first series that are
    no name/y records are dropped without an error; the memo throws when
    the name or the y value of a name/y record cannot be converted, and
    returns the converted records, in order, otherwise (none when there
    is no series). *)
Theorem tableData_total spec :
  (ChartSpec.chart_type spec ≠ PIE →
   ∃ rows,
     tableData spec = Returns (SeriesRows rows)
     ∧ length rows = max_list ((λ s, length (SeriesSpec.data s))
                                 <$> ChartSpec.series spec)
     ∧ (∀ i, i < length rows → rows !! i = Some (build_row spec i))
     ∧ (NoDup (SeriesSpec.name <$> ChartSpec.series spec) →
        ∀ i s, s ∈ ChartSpec.series spec →
          SeriesSpec.name s ≠ AxisSpec.title (ChartSpec.x_axis spec) →
          SeriesSpec.name s ≠ "__proto__" →
          build_row spec i !! SeriesSpec.name s
          = cell_of (SeriesSpec.data s !! i))
     ∧ (∀ i row s,
          (∀ p, SeriesSpec.data s !! i = Some p →
                is_xy_pair p = false ∧ is_bare_number p = false) →
          fill_cell spec i row s = row)
     ∧ (∀ i k,
          k ≠ AxisSpec.title (ChartSpec.x_axis spec) →
          (∀ s, s ∈ ChartSpec.series spec → k = SeriesSpec.name s →
             ∀ p, SeriesSpec.data s !! i = Some p →
                  is_xy_pair p = false ∧ is_bare_number p = false) →
          build_row spec i !! k = None)
     ∧ (ChartSpec.series spec = [] → rows = []))
  ∧ (ChartSpec.chart_type spec = PIE →
     (∀ p, is_name_y_record p = false → pie_row p = Returns None)
     ∧ (ChartSpec.series spec = [] → tableData spec = Returns (PieRows []))
     ∧ (∀ s, ChartSpec.series spec !! 0%nat = Some s →
          ((∃ p, p ∈ SeriesSpec.data s ∧ conversion_fails p = true) →
           tableData spec = ThrowsTypeError)
          ∧ ((∀ p, p ∈ SeriesSpec.data s → conversion_fails p = false) →
             tableData spec
             = Returns (PieRows (omap pie_record (SeriesSpec.data s)))
             ∧ length (omap pie_record (SeriesSpec.data s))
               = length (filter (λ p, is_name_y_record p = true)
                                (SeriesSpec.data s))))).
Proof.
  split; intros Ht.
  - eexists. split; [by apply tableData_series|].
    split; [by rewrite length_fmap, length_seq|].
    split.
    { intros i Hi. rewrite length_fmap, length_seq in Hi.
      rewrite list_lookup_fmap, lookup_seq_lt by done. done. }
    split.
    { intros Hnd i s Hs Hname Hproto.
      apply list_elem_of_split in Hs as (pre & post & Hsplit).
      apply (build_row_cell_split spec i pre post s); try done.
      by apply (NoDup_names_split (ChartSpec.series spec)). }
    split; [intros i row s; apply fill_cell_skip|].
    split; [intros i k; apply build_row_cell_omitted|].
    by intros ->.
  - split.
    { intros p Hp. rewrite pie_row_cases.
      destruct p as [r| |]; try done. simpl in *. by rewrite Hp. }
    split.
    { intros Hs. rewrite (tableData_pie _ Ht). by rewrite Hs. }
    intros s Hs. rewrite (tableData_pie _ Ht), Hs. split.
    + intros Hp%existsb_conversion_fails. by rewrite Hp.
    + intros Hp. split; [|apply length_pie_rows].
      destruct (existsb conversion_fails (SeriesSpec.data s)) eqn:He;
        [|done].
      apply existsb_conversion_fails in He as (p & Hin & Hf).
      by rewrite (Hp p Hin) in Hf.
Qed.
End table_properties.

(** C10, as stated, fails twice. The table of a pie chart is not
    computed when the name of a name/y record cannot be converted to a
    string: the memo throws. And in a chart that is not a pie chart, a
    series without any point has a cell all the same when it is named
    like the x axis, whose title every pair writes. *)
Lemma unconvertible_name_throws :
  (ChartSpec.chart_type unconvertible_pie_spec = PIE
   ∧ ChartDisplay.tableData unconvertible_pie_spec
     = ThrowsTypeError)
  ∧ (ChartSpec.chart_type title_named_spec = COLUMN
     ∧ ChartSpec.series title_named_spec !! 0%nat = Some title_named_series
     ∧ SeriesSpec.data title_named_series = []
     ∧ ChartDisplay.build_row title_named_spec 0 !! SeriesSpec.name title_named_series
       = Some (JStr "a")).
Proof. repeat split. Qed.

Lemma data_point_shapes_witness :
  (∃ l, chartConverter.chartSpecToHighcharts column_spec !! "series"
        = Some (JArr (JObj <$> l))
        ∧ length l = 2%nat)
  ∧ ChartDisplay.tableData column_spec
    = Returns (ChartDisplay.SeriesRows
                 (ChartDisplay.build_row column_spec <$> seq 0 3))
  ∧ ChartDisplay.fill_cell column_spec 0 ∅ mixed_series
    = assign_primitive "count" (SNum 5%float) ∅.
Proof.
  destruct (data_point_shapes column_spec) as (Hl & _ & _ & Hs).
  destruct (Hl eq_refl) as (l & Hseries & Hlen & _).
  destruct Hs as [Ht Hc]; [done|].
  split; [by exists l|].
  split; [exact Ht|].
  exact (Hc 0%nat ∅ mixed_series (PNumber 5%float) eq_refl).
Defined.

Lemma tableData_total_witness :
  (∃ rows, ChartDisplay.tableData column_spec
           = Returns (ChartDisplay.SeriesRows rows)
           ∧ length rows = 3%nat
           ∧ ChartDisplay.build_row column_spec 1 !! "count"
             = Some (JNum 7%float)
           ∧ ChartDisplay.build_row column_spec 2 !! "count" = None)
  ∧ ChartDisplay.tableData pie_spec
    = Returns (ChartDisplay.PieRows
                 [ChartDisplay.mkPieRow (js_String (JStr "A"))
                                        (js_Number (JNum 45%float))])
  ∧ ChartDisplay.tableData unconvertible_pie_spec = ThrowsTypeError.
Proof.
  destruct (tableData_total column_spec) as [Hs _].
  destruct (tableData_total pie_spec) as [_ Hp].
  destruct (tableData_total unconvertible_pie_spec) as [_ Hu].
  destruct Hs as (rows & Ht & Hlen & _ & Hcell & _ & Hnone & _); [done|].
  destruct Hp as (_ & _ & Hrows); [done|].
  destruct Hu as (_ & _ & Hthrows); [done|].
  split; [|split].
  - exists rows. split; [done|]. split; [done|]. split.
    + apply (Hcell ltac:(repeat constructor; set_solver) 1%nat mixed_series);
        [by left|done|done].
    + apply Hnone; [done|].
      intros s Hs Hk p Hp.
      apply elem_of_cons in Hs as [->|Hs].
      * cbn in Hp. by simplify_eq.
      * apply list_elem_of_singleton in Hs as ->. done.
  - destruct (Hrows pie_series eq_refl) as [_ Hok].
    destruct Hok as [Hok _]; [|exact Hok].
    by intros p ->%list_elem_of_singleton.
  - destruct (Hthrows _ eq_refl) as [Hfail _].
    apply Hfail. eexists. split; [by left|done].
Defined.

(** * Properties of the request built by the input form *)

Section submit_properties.
Import JsonInput.
Context `{JsRuntime} `{JsonInputProps}.
Implicit Types (st : State) (req : ChartRequest.t) (h : UserHints.t).

Lemma build_hints_fields st :
  UserHints.preferred_chart_type (build_hints st)
  = match preferredChartType st with Some c => Val c | None => Absent end
  ∧ UserHints.x_field (build_hints st)
    = (if decide (js_trim (xField st) = "") then Absent
       else Val (js_trim (xField st)))
  ∧ UserHints.y_field (build_hints st)
    = (if decide (js_trim (yField st) = "") then Absent
       else Val (js_trim (yField st)))
  ∧ UserHints.units (build_hints st) = Absent
  ∧ UserHints.formatting (build_hints st) = Absent.
Proof.
  unfold build_hints. rewrite !truthy_decide.
  by destruct (decide (js_trim (xField st) = "")),
       (decide (js_trim (yField st) = "")), (preferredChartType st).
Qed.

(** The request holds the hints object when it has a key, [null]
    otherwise. *)
Lemma handleSubmit_request st st' req :
  handleSubmit st = (st', Some req) →
  ChartRequest.hints req
  = if Nat.ltb 0 (Object_keys_length (build_hints st))
    then Val (build_hints st) else Null.
Proof.
  unfold handleSubmit. simpl.
  destruct (JSON_parse (jsonText st)); [|done].
  destruct (onSubmit _); by intros [= _ <-].
Qed.

(** A text that parses is always submitted; the error is cleared when
    [onSubmit] returns and set when it throws. A text that does not parse
    submits nothing and sets the error. *)
Lemma handleSubmit_parses st data :
  JSON_parse (jsonText st) = inl data →
  ∃ req,
    handleSubmit st
    = (match onSubmit req with
       | Returned => setError None st
       | Thrown message => setError (Some ("Invalid JSON: " ++ message)) st
       end, Some req)
    ∧ ChartRequest.data req = data.
Proof.
  intros Hd. unfold handleSubmit. simpl. rewrite Hd.
  exists (ChartRequest.mk data
            (if Nat.ltb 0 (Object_keys_length (build_hints st))
             then Val (build_hints st) else Null)).
  split; [|done]. by destruct (onSubmit _).
Qed.

Lemma handleSubmit_throws st message :
  JSON_parse (jsonText st) = inr message →
  handleSubmit st
  = (setError (Some ("Invalid JSON: " ++ message)) st, None).
Proof. intros Hd. unfold handleSubmit. simpl. by rewrite Hd. Qed.

Lemma request_has_hints {A : Type} (key : UserHints.t → nullable A) req :
  request_has key req
  ↔ match ChartRequest.hints req with
    | Val h => key h ≠ Absent
    | _ => False
    end.
Proof.
  unfold request_has. destruct (ChartRequest.hints req) as [| |h].
  - split; [by intros (? & ? & _)|done].
  - split; [by intros (? & ? & _)|done].
  - split; [by intros (? & [= <-] & ?)|by exists h].
Qed.

(** C7. In every request [handleSubmit] submits, the key
    [preferred_chart_type] is present exactly when a chart type is
    selected, and [x_field] and [y_field] exactly when the corresponding
    input is not empty after trimming; a present key holds the selected
    type or the trimmed, non-empty text, [units] and [formatting] are never
    set, and when none of the three inputs is given the request carries
    [hints = null]. *)
Theorem hint_keys_follow_inputs st st' req :
  handleSubmit st = (st', Some req) →
  (request_has UserHints.preferred_chart_type req
     ↔ preferredChartType st ≠ None)
  ∧ (request_has UserHints.x_field req ↔ js_trim (xField st) ≠ "")
  ∧ (request_has UserHints.y_field req ↔ js_trim (yField st) ≠ "")
  ∧ (preferredChartType st = None ∧ js_trim (xField st) = ""
     ∧ js_trim (yField st) = ""
     ↔ ChartRequest.hints req = Null)
  ∧ ChartRequest.hints req ≠ Absent
  ∧ (∀ h, ChartRequest.hints req = Val h →
       UserHints.preferred_chart_type h
       = match preferredChartType st with
         | Some c => Val c
         | None => Absent
         end
       ∧ UserHints.x_field h
         = (if decide (js_trim (xField st) = "") then Absent
            else Val (js_trim (xField st)))
       ∧ UserHints.y_field h
         = (if decide (js_trim (yField st) = "") then Absent
            else Val (js_trim (yField st)))
       ∧ UserHints.units h = Absent
       ∧ UserHints.formatting h = Absent).
Proof.
  intros Hreq%handleSubmit_request.
  destruct (build_hints_fields st) as (Hp & Hx & Hy & Hu & Hf).
  rewrite !request_has_hints, Hreq. unfold Object_keys_length.
  rewrite Hp, Hx, Hy, Hu, Hf. clear Hreq.
  destruct (preferredChartType st) as [c|];
    destruct (decide (js_trim (xField st) = "")) as [Ex|Ex];
    destruct (decide (js_trim (yField st) = "")) as [Ey|Ey]; simpl;
    rewrite ?Hp, ?Hx, ?Hy; intuition congruence.
Qed.
End submit_properties.

Example area_form_submits :
  JsonInput.handleSubmit area_form = (area_form, Some area_request).
Proof. vm_compute. reflexivity. Qed.

Lemma hint_keys_follow_inputs_witness :
  request_has UserHints.x_field area_request
  ∧ ¬ request_has UserHints.y_field area_request.
Proof.
  destruct (hint_keys_follow_inputs area_form area_form area_request)
    as (_ & Hx & Hy & _); [vm_compute; reflexivity|].
  split.
  - apply Hx. vm_compute. discriminate.
  - intros Hhas. apply Hy in Hhas. by apply Hhas.
Defined.

(** With nothing selected or typed the request carries [hints = null],
    and the error of an earlier attempt is cleared. *)
Example blank_form_submits_null :
  JsonInput.handleSubmit blank_form
  = (JsonInput.setError None blank_form,
     Some (ChartRequest.mk (JObj ∅) Null)).
Proof. vm_compute. reflexivity. Qed.

(** * Properties of the inference engine *)

(** The model answers the scenarios of the specification as the
    specification says. *)
Section scenarios.
Let chosen (r : ChartSpec.t + Engine.ValidationError) :=
  match r with
  | inl s => Some (ChartSpec.chart_type s)
  | inr _ => None
  end.

Let series_data (r : ChartSpec.t + Engine.ValidationError) :=
  match r with
  | inl s =>
      (λ x, (SeriesSpec.name x, SeriesSpec.data x)) <$> ChartSpec.series s
  | inr _ => []
  end.

Example dated_points_give_line_chart :
  chosen (Engine.infer points_input Null) = Some LINE
  ∧ series_data (Engine.infer points_input Null)
    = [("Series 1", [PArray [SNum 1764547200000%float; SNum 10%float];
                     PArray [SNum 1764633600000%float; SNum 15%float]])].
Proof. split; vm_compute; reflexivity. Qed.

Example single_item_gives_pie_chart :
  chosen (Engine.infer items_input Null) = Some PIE
  ∧ series_data (Engine.infer items_input Null)
    = [("Series 1", [PRecord {[ "name" := JStr "A";
                                "y" := JNum 45%float ]}])].
Proof. split; vm_compute; reflexivity. Qed.

Example two_series_give_line_chart :
  chosen (Engine.infer series_input Null) = Some LINE
  ∧ (fst <$> series_data (Engine.infer series_input Null))
    = ["CPU"; "Memory"].
Proof. split; vm_compute; reflexivity. Qed.

Example area_hint_is_honoured :
  chosen (Engine.infer points_input
            (Val (UserHints.mk (Val AREA) Absent Absent Absent Absent)))
  = Some AREA.
Proof. vm_compute. reflexivity. Qed.
End scenarios.

Section engine_properties.
Context `{Engine.Params}.

Lemma detect_empty_object : Engine.detect (JObj ∅) = Engine.Unrecognized.
Proof. reflexivity. Qed.

Lemma extract_empty_object p hints :
  p = Engine.Unrecognized →
  Engine.extract p hints (JObj ∅) = inr Engine.no_usable_data.
Proof. intros ->. reflexivity. Qed.

(** C6. On the empty object, whatever the hints, [infer] returns the
    validation error, which carries a message, and [validate] reports
    every pattern flag false. *)
Theorem empty_object_is_rejected (hints : nullable UserHints.t) :
  (∃ e, Engine.infer (JObj ∅) hints = inr e ∧ Engine.message e ≠ "")
  ∧ Engine.validate (JObj ∅)
    = Engine.mkFlags false false false false false.
Proof.
  split; [|reflexivity].
  exists Engine.no_usable_data. split; [|done].
  unfold Engine.infer.
  by rewrite (extract_empty_object _ _ detect_empty_object).
Qed.
End engine_properties.

(** * Further properties of the converter *)

Section converter_more.
Import chartConverter.
Implicit Types (spec : ChartSpec.t) (k : string) (v : JsValue)
  (a : AxisSpec.t) (s : SeriesSpec.t).

Lemma dom_computed_options spec :
  dom (computed_options spec)
  = ({[ "title"; "subtitle"; "credits"; "accessibility"; "chart"; "series";
        "xAxis"; "yAxis" ]} : gset string).
Proof.
  unfold computed_options, baseConfig, object_spread.
  rewrite !dom_insert_L, dom_union_L, !dom_insert_L, dom_empty_L.
  set_solver.
Qed.

(** X1. The returned options have exactly the eight keys the converter
    writes and the keys of [config]: no key is ever dropped, also not one
    whose value is undefined, and none is invented. *)
Theorem options_keys spec :
  dom (chartSpecToHighcharts spec)
  = ({[ "title"; "subtitle"; "credits"; "accessibility"; "chart"; "series";
        "xAxis"; "yAxis" ]} : gset string) ∪ dom (ChartSpec.config spec).
Proof.
  unfold chartSpecToHighcharts, object_spread.
  rewrite dom_union_L, dom_computed_options. set_solver.
Qed.

Lemma computed_options_with_config c spec :
  computed_options (with_config c spec) = computed_options spec.
Proof. reflexivity. Qed.

(** X2. Converting is converting with an empty [config] and laying
    [config] over the result: [config] takes part in nothing else, so a key
    that [config] does not name has the value it has without any
    [config]. *)
Theorem config_is_an_overlay spec :
  chartSpecToHighcharts spec
  = object_spread (chartSpecToHighcharts (with_config ∅ spec))
                  (ChartSpec.config spec)
  ∧ ∀ k, ChartSpec.config spec !! k = None →
         chartSpecToHighcharts spec !! k
         = chartSpecToHighcharts (with_config ∅ spec) !! k.
Proof.
  assert (Hempty : chartSpecToHighcharts (with_config ∅ spec)
                   = computed_options spec).
  { unfold chartSpecToHighcharts, object_spread. simpl.
    by rewrite (left_id_L ∅ (∪)). }
  rewrite Hempty. split; [done|].
  intros k Hk. by apply lookup_options_computed.
Qed.

Lemma config_is_an_overlay_witness :
  chartSpecToHighcharts line_spec_chart_in_config !! "title"
  = chartSpecToHighcharts (with_config ∅ line_spec_chart_in_config) !! "title".
Proof.
  destruct (config_is_an_overlay line_spec_chart_in_config) as [_ Hk].
  apply Hk. reflexivity.
Defined.

Lemma seriesConfig_alike (c : ChartType) s s' :
  series_alike s s' → seriesConfig c s = seriesConfig c s'.
Proof.
  intros (Hn & Hd & Hc & Hy). unfold seriesConfig, string_or_undefined.
  by rewrite Hn, Hd, Hc, Hy.
Qed.

Lemma convert_series_alike (c : ChartType) (ss ss' : list SeriesSpec.t) :
  Forall2 series_alike ss ss' →
  convert_series c <$> ss = convert_series c <$> ss'.
Proof.
  induction 1 as [|s s' ss ss' Hs _ IH]; [done|].
  rewrite !fmap_cons, IH, !convert_series_seriesConfig.
  by rewrite (seriesConfig_alike c s s' Hs).
Qed.

Lemma xAxis_alike spec spec' :
  ChartSpec.chart_type spec = ChartSpec.chart_type spec' →
  (ChartSpec.chart_type spec ≠ PIE →
   x_axis_alike (ChartSpec.x_axis spec) (ChartSpec.x_axis spec')) →
  xAxis spec = xAxis spec'.
Proof.
  intros Ht Ha. unfold xAxis. rewrite <- Ht.
  destruct (decide (ChartSpec.chart_type spec ≠ PIE)) as [Hp|]; [|done].
  destruct (Ha Hp) as (-> & -> & -> & ->). done.
Qed.

Lemma yAxis_alike spec spec' :
  ChartSpec.chart_type spec = ChartSpec.chart_type spec' →
  (ChartSpec.chart_type spec ≠ PIE →
   optional_axis_alike (ChartSpec.y_axis spec) (ChartSpec.y_axis spec')) →
  yAxis spec = yAxis spec'.
Proof.
  intros Ht Ha. unfold yAxis. rewrite <- Ht.
  destruct (decide (ChartSpec.chart_type spec ≠ PIE)) as [Hp|Hp].
  - specialize (Ha Hp). unfold optional_axis_alike in Ha.
    destruct (ChartSpec.y_axis spec) as [| |a],
      (ChartSpec.y_axis spec') as [| |a']; try done.
    destruct Ha as (Htitle & Hu & -> & -> & ->).
    unfold yAxis_title_text. by rewrite Htitle, Hu.
  - by destruct (ChartSpec.y_axis spec), (ChartSpec.y_axis spec').
Qed.

(** X3. The options depend on a specification only through what the
    converter reads. Two specifications give the same options when they
    differ at most in [rationale], [alternative_types], the per-series
    [type], the [field] and [format] of an axis, the [unit] of the x axis,
    the axes of a pie chart, semantic axis types of the same Highcharts
    type, a [null] against a missing value, or an empty string against
    [null] in [subtitle], [description], a series [color] or the y-axis
    [unit]. *)
Theorem alike_specs_convert_alike spec spec' :
  converted_alike spec spec' →
  chartSpecToHighcharts spec = chartSpecToHighcharts spec'.
Proof.
  intros (Ht & Htitle & Hsub & Hdesc & Hseries & Haxes & Hconfig).
  unfold chartSpecToHighcharts. rewrite Hconfig. f_equal.
  unfold computed_options, baseConfig, string_or.
  rewrite (xAxis_alike spec spec' Ht) by (intros Hp; by apply Haxes).
  rewrite (yAxis_alike spec spec' Ht) by (intros Hp; by apply Haxes).
  rewrite (convert_series_alike _ _ _ Hseries).
  by rewrite Ht, Htitle, Hsub, Hdesc.
Qed.

Lemma alike_specs_convert_alike_witness :
  chartSpecToHighcharts line_spec_restyled = chartSpecToHighcharts line_spec.
Proof.
  apply alike_specs_convert_alike.
  repeat split; try done.
  repeat constructor.
Defined.

(** X4. When [config] does not name [series], the returned series are the
    converted series of the specification, one for each and in the same
    order; each has exactly the five keys [name], [data], [type], [color]
    and [yAxis], with the name and the axis index of its series, and a
    colour only if the series has a non-empty one. *)
Theorem series_converted_in_order spec :
  ChartSpec.config spec !! "series" = None →
  ∃ l,
    chartSpecToHighcharts spec !! "series" = Some (JArr (JObj <$> l))
    ∧ length l = length (ChartSpec.series spec)
    ∧ ∀ i s, ChartSpec.series spec !! i = Some s →
        ∃ o, l !! i = Some o
          ∧ dom o = ({[ "name"; "data"; "type"; "color"; "yAxis" ]}
                     : gset string)
          ∧ o !! "name" = Some (JStr (SeriesSpec.name s))
          ∧ o !! "yAxis" = Some (JNum (SeriesSpec.y_axis s))
          ∧ o !! "color"
            = Some match SeriesSpec.color s with
                   | Val c => if decide (c = "") then JUndefined else JStr c
                   | _ => JUndefined
                   end.
Proof.
  intros Hc. eexists. split.
  { by rewrite (lookup_options_computed _ _ Hc), computed_series. }
  split; [by rewrite length_fmap|].
  intros i s Hs. eexists. split.
  { by rewrite list_lookup_fmap, Hs. }
  rewrite convert_series_seriesConfig. unfold seriesConfig.
  split; [rewrite !dom_insert_L, dom_singleton_L; set_solver|].
  split; [done|]. split; [done|].
  unfold string_or_undefined, truthy_text.
  destruct (SeriesSpec.color s) as [| |c]; try done.
  rewrite truthy_decide. by destruct (decide (c = "")).
Qed.

Lemma series_converted_in_order_witness :
  ∃ l, chartSpecToHighcharts column_spec !! "series" = Some (JArr (JObj <$> l))
       ∧ length l = 2%nat.
Proof.
  destruct (series_converted_in_order column_spec eq_refl)
    as (l & Hl & Hlen & _).
  exists l. split; [exact Hl|exact Hlen].
Defined.
(** X16. When [config] names neither [chart] nor [series], every
    returned series has the type of the chart, which is the chart type of
    the specification: a chart never mixes series of different types,
    whatever type a series names for itself. *)
Theorem series_type_is_chart_type spec :
  ChartSpec.config spec !! "chart" = None →
  ChartSpec.config spec !! "series" = None →
  ∃ l,
    chartSpecToHighcharts spec !! "chart"
    = Some (JObj {[ "type" :=
                      JStr (ChartType_value (ChartSpec.chart_type spec)) ]})
    ∧ chartSpecToHighcharts spec !! "series" = Some (JArr (JObj <$> l))
    ∧ Forall (λ o, o !! "type"
                   = Some (JStr (ChartType_value (ChartSpec.chart_type spec))))
             l.
Proof.
  intros Hchart Hseries. eexists. split.
  { by rewrite (lookup_options_computed _ _ Hchart), computed_chart. }
  split.
  { by rewrite (lookup_options_computed _ _ Hseries), computed_series. }
  apply Forall_fmap, Forall_true. intros s. simpl.
  by rewrite convert_series_seriesConfig.
Qed.

Lemma series_type_is_chart_type_witness :
  chartSpecToHighcharts line_spec_restyled !! "chart"
  = Some (JObj {[ "type" := JStr "line" ]}).
Proof.
  destruct (series_type_is_chart_type line_spec_restyled eq_refl eq_refl)
    as (l & Hchart & _).
  exact Hchart.
Defined.
End converter_more.

(** * Further properties of the tabular fallback *)

Section table_more.
Import ChartDisplay.
Context `{JsRuntime}.
Implicit Types (spec : ChartSpec.t) (s : SeriesSpec.t) (p : DataPoint)
  (row : gmap string JsValue) (k : string).

(** X5. A row of the table never has a key other than the x-axis title
    and the names of the series, never the key [__proto__], and holds
    numbers and strings only. *)
Theorem row_keys spec i k v :
  build_row spec i !! k = Some v →
  (k = AxisSpec.title (ChartSpec.x_axis spec)
   ∨ k ∈ SeriesSpec.name <$> ChartSpec.series spec)
  ∧ k ≠ "__proto__"
  ∧ ∃ x : Scalar, v = Scalar_to_js x.
Proof.
  unfold build_row. intros Hk.
  apply foldl_fill_cell_keys in Hk as [Hk|Hk]; [done|].
  by rewrite lookup_empty in Hk.
Qed.

(** X6. When the series have distinct names, the cell of a series in row
    [i] is the y value of its point at index [i]: the second entry of a
    pair, a bare number itself, and no cell for any other point or past the
    end of the series. The name must be neither the x-axis title nor
    [__proto__]. *)
Theorem row_cell_of_series spec i s :
  NoDup (SeriesSpec.name <$> ChartSpec.series spec) →
  s ∈ ChartSpec.series spec →
  SeriesSpec.name s ≠ AxisSpec.title (ChartSpec.x_axis spec) →
  SeriesSpec.name s ≠ "__proto__" →
  build_row spec i !! SeriesSpec.name s = cell_of (SeriesSpec.data s !! i).
Proof.
  intros Hnd Hs Ht Hp.
  apply list_elem_of_split in Hs as (pre & post & Hsplit).
  apply (build_row_cell_split spec i pre post s); try done.
  by apply (NoDup_names_split (ChartSpec.series spec)).
Qed.

(** X7. The x cell of row [i] is the x value of the last series that has
    a pair at index [i]: a later pair overwrites the x value an earlier
    series wrote, so series that disagree on x share the x of the last.
    No series from that one on may be named like the x-axis title, and the
    title must not be [__proto__]. *)
Theorem x_cell_of_last_pair spec i (pre post : list SeriesSpec.t) s :
  ChartSpec.series spec = (pre ++ s :: post)%list →
  is_Some (x_of (SeriesSpec.data s !! i)) →
  (∀ s', s' ∈ post → x_of (SeriesSpec.data s' !! i) = None) →
  (∀ s', s' ∈ s :: post →
         SeriesSpec.name s' ≠ AxisSpec.title (ChartSpec.x_axis spec)) →
  AxisSpec.title (ChartSpec.x_axis spec) ≠ "__proto__" →
  build_row spec i !! AxisSpec.title (ChartSpec.x_axis spec)
  = x_of (SeriesSpec.data s !! i).
Proof.
  intros Hsplit Hx Hpost Hnames Hp. unfold build_row.
  rewrite Hsplit, foldl_app. simpl.
  rewrite foldl_fill_cell_untouched.
  - apply fill_cell_title; [done| |done]. apply Hnames. by left.
  - intros s' Hs'. split; [intros _; by apply Hpost|].
    intros Heq. destruct (Hnames s'); [by right|done].
Qed.

(** X8. The table of a pie chart reads the data of the first series and
    nothing else: later series, the names of the series, the axes and the
    titles never show in it. Two pie charts whose first series have the
    same data get the same rows, or both throw. *)
Theorem pie_table_reads_first_series spec spec' :
  ChartSpec.chart_type spec = PIE →
  ChartSpec.chart_type spec' = PIE →
  SeriesSpec.data <$> (ChartSpec.series spec !! 0%nat)
  = SeriesSpec.data <$> (ChartSpec.series spec' !! 0%nat) →
  tableData spec = tableData spec'.
Proof.
  intros Ht Ht' Hd. rewrite !tableData_pie by done.
  destruct (ChartSpec.series spec !! 0%nat) as [s|],
    (ChartSpec.series spec' !! 0%nat) as [s'|]; simplify_eq/=; [|done].
  by rewrite Hd.
Qed.
End table_more.

Lemma row_keys_witness :
  "count" ≠ "__proto__" ∧ ∃ x : Scalar, JNum 5%float = Scalar_to_js x.
Proof.
  destruct (row_keys column_spec 0 "count" (JNum 5%float) eq_refl)
    as (_ & Hp & Hx).
  split; [exact Hp|exact Hx].
Defined.

Lemma row_cell_of_series_witness :
  ChartDisplay.build_row column_spec 1 !! "count" = Some (JNum 7%float).
Proof.
  apply (row_cell_of_series column_spec 1 mixed_series).
  - repeat constructor; set_solver.
  - by left.
  - done.
  - done.
Defined.

Lemma x_cell_of_last_pair_witness :
  ChartDisplay.build_row two_x_spec 0 !! "Category" = Some (JStr "b").
Proof.
  apply (x_cell_of_last_pair two_x_spec 0 [short_series] []
           (SeriesSpec.mk "later" [PArray [SStr "b"; SNum 2%float]]
              Null Null 0%float)).
  - reflexivity.
  - by eexists.
  - by intros s' ?%elem_of_nil.
  - by intros s' ->%list_elem_of_singleton.
  - done.
Defined.

Lemma pie_table_reads_first_series_witness :
  ChartDisplay.tableData pie_spec_two_series = ChartDisplay.tableData pie_spec.
Proof.
  apply (pie_table_reads_first_series pie_spec_two_series pie_spec);
    reflexivity.
Defined.

(** * Properties of the input form and of the chart on display *)

Section form_properties.
Import JsonInput JsonInputForm.
Context `{JsRuntime} `{JsonInputProps}.
Implicit Types (st : State) (e : Event) (events : list Event)
  (req : ChartRequest.t).

Lemma handleSubmit_explained st :
  error_explained (handleSubmit st).1.
Proof.
  unfold handleSubmit, error_explained. simpl.
  destruct (JSON_parse (jsonText st)) as [data|message] eqn:Hparse.
  - match goal with
    | |- context [onSubmit ?r] => destruct (onSubmit r) as [|thrown] eqn:Hcall
    end; simpl; [done|].
    right. exists thrown. split; [done|]. right.
    eexists. split; [|exact Hcall]. by rewrite Hparse.
  - simpl. right. exists message. split; [done|]. left. by rewrite Hparse.
Qed.

Lemma step_explained st e :
  error_explained st → error_explained (step st e).1.
Proof.
  intros Hst. destruct e as [v|v|v|v|ex|[[text|]|]|loading]; simpl;
    try done.
  - by left.
  - destruct (submit_disabled st loading); [done|].
    apply handleSubmit_explained.
Qed.

(** X9. Whatever is done to the form, from its first render on, an error
    it shows is explained by its present state: the error is the message
    of a failed file read, or it is "Invalid JSON: " followed by the
    message with which [JSON.parse] fails on the text now in the box, or
    followed by the message [onSubmit] threw on a request parsed from the
    text now in the box (the call sits in the same [try]). An "Invalid
    JSON" error never outlives an edit of the text, and with an
    [onSubmit] that never throws it always is a failure of [JSON.parse]
    on the present text. *)
Theorem error_always_explained events :
  error_explained (run initial events).1.
Proof.
  assert (Hrun : ∀ st, error_explained st → error_explained (run st events).1).
  { induction events as [|e events IH]; intros st Hst; [done|].
    simpl. pose proof (step_explained st e Hst) as Hstep.
    destruct (step st e) as [st' request].
    specialize (IH st' Hstep). by destruct (run st' events). }
  apply Hrun. unfold error_explained, initial. by simpl.
Qed.

Lemma handleSubmit_content st st' req :
  handleSubmit st = (st', Some req) →
  JSON_parse (jsonText st) = inl (ChartRequest.data req)
  ∧ hints_carry_content req.
Proof.
  intros Hsub. split.
  - unfold handleSubmit in Hsub. simpl in Hsub.
    destruct (JSON_parse (jsonText st)); [|done].
    destruct (onSubmit _); by injection Hsub as _ <-.
  - unfold hints_carry_content.
    rewrite (handleSubmit_request _ _ _ Hsub).
    destruct (Nat.ltb 0 (Object_keys_length (build_hints st))) eqn:Hkeys;
      [|done].
    apply Nat.ltb_lt in Hkeys. split; [done|].
    destruct (build_hints_fields st) as (Hp & Hx & Hy & _).
    rewrite Hp, Hx, Hy.
    destruct (preferredChartType st),
      (decide (js_trim (xField st) = "")),
      (decide (js_trim (yField st) = "")); repeat split; congruence.
Qed.

(** Only a click on the enabled button hands over a request. *)
Lemma step_request st e st' req :
  step st e = (st', Some req) →
  e = SubmitClicked false
  ∧ truthy (js_trim (jsonText st)) = true
  ∧ JSON_parse (jsonText st) = inl (ChartRequest.data req)
  ∧ hints_carry_content req.
Proof.
  destruct e as [v|v|v|v|ex|file|loading]; simpl; try done.
  unfold submit_disabled.
  destruct (truthy (js_trim (jsonText st))); simpl; [|done].
  destruct loading; [done|].
  intros Hsub. split; [done|]. split; [done|].
  by apply (handleSubmit_content st st').
Qed.

Lemma run_cons_state st e st' request (events : list Event) :
  step st e = (st', request) →
  (run st (e :: events)).1 = (run st' events).1.
Proof. simpl. intros ->. by destruct (run st' events). Qed.

(** X10. Every request the form hands to [onSubmit], in any sequence of
    events, stems from a click on the button in a render with
    [isLoading] false, on a text in the box that is not blank and that
    [JSON.parse] parses to the data of the request; its hints are [null]
    or an object with at least one key in which no key holds [null] or an
    empty string. So the form submits nothing while loading, and never
    blank text, an empty hints object or an empty hint. *)
Theorem submitted_requests_carry_content st events req :
  req ∈ (run st events).2 →
  ∃ pre post : list Event,
    events = (pre ++ SubmitClicked false :: post)%list
    ∧ truthy (js_trim (jsonText (run st pre).1)) = true
    ∧ JSON_parse (jsonText (run st pre).1) = inl (ChartRequest.data req)
    ∧ hints_carry_content req.
Proof.
  revert st. induction events as [|e events IH]; intros st; simpl.
  { by intros ?%elem_of_nil. }
  destruct (step st e) as [st' request] eqn:Hstep.
  specialize (IH st'). destruct (run st' events) as [final requests].
  simpl in *. intros [Hin|Hin]%elem_of_app.
  - destruct request as [r|]; simpl in Hin; [|by apply elem_of_nil in Hin].
    apply list_elem_of_singleton in Hin as ->.
    destruct (step_request st e st' r Hstep) as (-> & Htext & Hparse & Hc).
    by exists [], events.
  - destruct (IH Hin) as (pre & post & -> & Htext & Hparse & Hc).
    exists (e :: pre), post. split; [done|].
    by rewrite (run_cons_state st e st' request pre Hstep).
Qed.
End form_properties.

Section app_properties.
Import App.

Lemma chart_after_snoc (responses : list Response) (r : Response) :
  chart_after (responses ++ [r]) = handleSubmit r (chart_after responses).
Proof. unfold chart_after. by rewrite foldl_app. Qed.

(** X11. The chart on display after any sequence of settled calls is the
    result of the last fulfilled one, and none before the first: a rejected
    call never clears or replaces the chart, so the chart of an earlier
    request stays on display next to the error of a later one. *)
Theorem chart_on_display_is_last_result (responses : list Response) :
  chart_after responses = last (omap fulfilled responses).
Proof.
  induction responses as [|r responses IH] using rev_ind; [done|].
  rewrite chart_after_snoc, omap_app, IH.
  destruct r as [result|err]; simpl.
  - by rewrite last_snoc.
  - by rewrite (right_id_L [] (++)).
Qed.
End app_properties.

Lemma submitted_requests_carry_content_witness :
  ∃ pre post : list JsonInputForm.Event,
    [JsonInputForm.TextChanged "{}";
     JsonInputForm.ChartTypeSelected (Some AREA);
     JsonInputForm.XFieldChanged "  t ";
     JsonInputForm.SubmitClicked true;
     JsonInputForm.SubmitClicked false]
    = (pre ++ JsonInputForm.SubmitClicked false :: post)%list
    ∧ truthy (js_trim (JsonInput.jsonText
                         (JsonInputForm.run JsonInputForm.initial pre).1))
      = true
    ∧ JSON_parse (JsonInput.jsonText
                    (JsonInputForm.run JsonInputForm.initial pre).1)
      = inl (JObj ∅)
    ∧ hints_carry_content area_request.
Proof.
  apply (submitted_requests_carry_content JsonInputForm.initial
           [JsonInputForm.TextChanged "{}";
            JsonInputForm.ChartTypeSelected (Some AREA);
            JsonInputForm.XFieldChanged "  t ";
            JsonInputForm.SubmitClicked true;
            JsonInputForm.SubmitClicked false]
           area_request).
  assert (Hrun : (JsonInputForm.run JsonInputForm.initial
                    [JsonInputForm.TextChanged "{}";
                     JsonInputForm.ChartTypeSelected (Some AREA);
                     JsonInputForm.XFieldChanged "  t ";
                     JsonInputForm.SubmitClicked true;
                     JsonInputForm.SubmitClicked false]).2 = [area_request])
    by (vm_compute; reflexivity).
  rewrite Hrun. by left.
Defined.

(** * Properties of the rendered table *)

Section ordered_rows.
Import ChartDisplay ChartTable.
Implicit Types (spec : ChartSpec.t) (s : SeriesSpec.t) (k : string)
  (v : JsValue) (o row : list (string * JsValue)).

(** An ordered object read as a map. *)
Lemma own_list_to_map o k :
  own k o = (list_to_map o : gmap string JsValue) !! k.
Proof.
  induction o as [|[k' v'] o IH]; simpl; [done|].
  destruct (decide (k' = k)) as [->|Hne].
  - by rewrite String.eqb_refl, lookup_insert_eq.
  - by rewrite (proj2 (String.eqb_neq _ _) Hne), lookup_insert_ne.
Qed.

Lemma own_replace_value o k k' v :
  is_Some (own k o) →
  own k' (replace_value k v o) = if decide (k = k') then Some v else own k' o.
Proof.
  induction o as [|[k0 v0] o IH]; simpl; [by intros [? ?]|].
  destruct (decide (k0 = k)) as [->|Hne].
  - rewrite String.eqb_refl. intros _. simpl.
    destruct (decide (k = k')) as [->|Hk].
    + by rewrite String.eqb_refl.
    + by rewrite (proj2 (String.eqb_neq _ _) Hk).
  - rewrite (proj2 (String.eqb_neq _ _) Hne). intros Ho. simpl.
    rewrite (IH Ho).
    destruct (decide (k0 = k')) as [->|Hk0].
    + rewrite String.eqb_refl. by destruct (decide (k = k')) as [->|].
    + by rewrite (proj2 (String.eqb_neq _ _) Hk0).
Qed.

Lemma own_snoc o k k' v :
  own k' (o ++ [(k, v)])
  = match own k' o with
    | Some w => Some w
    | None => if decide (k = k') then Some v else None
    end.
Proof.
  induction o as [|[k0 v0] o IH]; simpl.
  - destruct (decide (k = k')) as [->|Hk].
    + by rewrite String.eqb_refl.
    + by rewrite (proj2 (String.eqb_neq _ _) Hk).
  - by destruct (String.eqb k0 k').
Qed.

Lemma own_define o k k' v :
  own k' (define k v o) = if decide (k = k') then Some v else own k' o.
Proof.
  unfold define. destruct (own k o) as [w|] eqn:Hk.
  - apply own_replace_value. rewrite Hk. by eexists.
  - rewrite own_snoc. destruct (decide (k = k')) as [->|]; [by rewrite Hk|].
    by destruct (own k' o).
Qed.

Lemma list_to_map_define o k v :
  (list_to_map (define k v o) : gmap string JsValue)
  = <[k := v]> (list_to_map o).
Proof.
  apply map_eq. intros k'.
  rewrite <- own_list_to_map, own_define.
  destruct (decide (k = k')) as [->|Hne].
  - by rewrite lookup_insert_eq.
  - by rewrite lookup_insert_ne, own_list_to_map.
Qed.

Lemma list_to_map_assign_ordered o k (x : Scalar) :
  (list_to_map (assign_ordered k x o) : gmap string JsValue)
  = assign_primitive k x (list_to_map o).
Proof.
  unfold assign_ordered, assign_primitive.
  destruct (String.eqb k "__proto__"); [done|]. apply list_to_map_define.
Qed.

Lemma list_to_map_fill_cell_ordered spec i row s :
  (list_to_map (fill_cell_ordered spec i row s) : gmap string JsValue)
  = fill_cell spec i (list_to_map row) s.
Proof.
  unfold fill_cell_ordered, fill_cell.
  destruct (SeriesSpec.data s !! i) as [[r|[|x [|y rest]]|n]|]; try done;
    by rewrite !list_to_map_assign_ordered.
Qed.

Lemma list_to_map_foldl_fill spec i (ss : list SeriesSpec.t) row :
  (list_to_map (foldl (fill_cell_ordered spec i) row ss)
     : gmap string JsValue)
  = foldl (fill_cell spec i) (list_to_map row) ss.
Proof.
  revert row. induction ss as [|s ss IH]; intros row; [done|].
  simpl. by rewrite IH, list_to_map_fill_cell_ordered.
Qed.

(** The ordered row, forgetting the order, is the row of the memo. *)
Lemma list_to_map_build_row_ordered spec i :
  (list_to_map (build_row_ordered spec i) : gmap string JsValue)
  = build_row spec i.
Proof. unfold build_row_ordered, build_row. apply list_to_map_foldl_fill. Qed.

Lemma own_build_row_ordered spec i k :
  own k (build_row_ordered spec i) = build_row spec i !! k.
Proof. by rewrite own_list_to_map, list_to_map_build_row_ordered. Qed.
End ordered_rows.

Section render_lemmas.
Import ChartDisplay ChartTable.
Implicit Types (spec : ChartSpec.t) (s : SeriesSpec.t) (k : string)
  (v : JsValue) (o row : list (string * JsValue)).

Lemma insert_by_index_nil_inv n v l : insert_by_index n v l ≠ [].
Proof. destruct l as [|[m w] l]; simpl; [done|]. by destruct (n <? m)%N. Qed.














End render_lemmas.

Section index_order.
Import ChartDisplay ChartTable.
Implicit Types (spec : ChartSpec.t) (s : SeriesSpec.t) (k : string)
  (v : JsValue) (o row : list (string * JsValue)).










End index_order.

Section render_theorems.
Import ChartDisplay ChartTable.
Context `{JsRuntime}.
Implicit Types (spec : ChartSpec.t) (s : SeriesSpec.t) (k : string)
  (v : JsValue) (o row : list (string * JsValue)).

(** The rows with their key order are the rows of the memo. *)
Lemma ordered_rows_tableData spec :
  ChartSpec.chart_type spec ≠ PIE →
  tableData spec = Returns (SeriesRows (list_to_map <$> ordered_rows spec)).
Proof.
  intros Ht. unfold tableData, ordered_rows.
  destruct (decide _); [done|]. do 2 f_equal.
  rewrite <- list_fmap_compose. apply list_fmap_ext.
  intros _ i _. simpl. by rewrite list_to_map_build_row_ordered.
Qed.

Lemma or_empty_shown v : or_empty v = shown (Some v).
Proof. done. Qed.

(** X12. When the series have distinct names, the cell of a series in
    row [i] of the rendered table shows the y value of its point at index
    [i], except that a y value of zero, [NaN] or the empty string is shown
    as an empty cell, like a missing point. The name must not be the x-axis
    title nor the name of a member every object inherits. *)
Theorem series_cell_shows_y spec i s :
  NoDup (SeriesSpec.name <$> ChartSpec.series spec) →
  s ∈ ChartSpec.series spec →
  SeriesSpec.name s ≠ AxisSpec.title (ChartSpec.x_axis spec) →
  SeriesSpec.name s ∉ Object_prototype_names →
  series_cell (build_row_ordered spec i) s
  = Text (js_String (shown (cell_of (SeriesSpec.data s !! i)))).
Proof.
  intros Hnd Hs Ht Hp. unfold series_cell, read.
  rewrite own_build_row_ordered.
  apply list_elem_of_split in Hs as (pre & post & Hsplit).
  rewrite (build_row_cell_split spec i pre post s Hsplit).
  - destruct (cell_of (SeriesSpec.data s !! i)) as [c|]; [done|].
    by rewrite bool_decide_eq_false_2.
  - by apply (NoDup_names_split (ChartSpec.series spec)).
  - done.
  - intros Heq. apply Hp. rewrite Heq. unfold Object_prototype_names.
    set_solver.
Qed.

(** X13. The rendered table is rectangular and complete. When the
    [tableData] memo returns, the body is rendered, every body row has as
    many cells as the header row, two for a pie chart and one more than
    there are series otherwise, also when a row holds no value at all,
    and the body has one row for each row of [tableData]. When the memo
    throws, the render throws and there is no table. *)
Theorem body_rows_match_header spec :
  match tableData spec with
  | Returns data =>
      ∃ cells,
        body spec = Returns cells
        ∧ Forall (λ line, length line = length (header spec)) cells
        ∧ length cells
          = match data with
            | PieRows rows => length rows
            | SeriesRows rows => length rows
            end
  | ThrowsTypeError => body spec = ThrowsTypeError
  end.
Proof.
  unfold body.
  destruct (decide (ChartSpec.chart_type spec = PIE)) as [Hp|Hp].
  - destruct (tableData spec) as [[rows|rows]|] eqn:Hdata; [| |done].
    + eexists. split; [done|]. split; [|by rewrite length_fmap].
      unfold header. rewrite decide_True by done.
      apply Forall_fmap, Forall_true. by intros row.
    + rewrite (tableData_pie spec Hp) in Hdata.
      destruct (ChartSpec.series spec !! 0) as [s|]; [|done].
      by destruct (existsb conversion_fails (SeriesSpec.data s)).
  - rewrite (ordered_rows_tableData spec Hp). simpl.
    eexists. split; [done|]. split; [|by rewrite !length_fmap].
    unfold header. rewrite decide_False by done.
    apply Forall_fmap, Forall_true. intros row. simpl.
    by rewrite !length_fmap.
Qed.


End render_theorems.

Lemma series_cell_shows_y_witness :
  ChartTable.series_cell (ChartTable.build_row_ordered column_spec 0)
    mixed_series
  = ChartTable.Text (js_String (JNum 5%float)).
Proof.
  apply (series_cell_shows_y column_spec 0 mixed_series).
  - repeat constructor; set_solver.
  - by left.
  - done.
  - unfold ChartTable.Object_prototype_names. set_solver.
Defined.


